(** * gamma.py: the display gamma controller, embedded and verified

    The program adjusts the gamma ramp of the active displays from four
    global hotkeys.  This file embeds its pieces the way the Python source
    writes them:

    - Python floats are IEEE-754 binary64 numbers.  They are modelled by the
      library's executable specification of binary64 ([spec_float] with
      [prec = 53], [emax = 1024]), so every arithmetic step rounds exactly
      as the interpreter does;
    - the built-in [pow] on floats ends in the C library and is not defined
      by the source: it is a parameter of the development;
    - the ctypes calls into user32/gdi32 are answered by an [OS] record and
      every call is logged as an [Event];
    - the methods of [GammaController] run in a small state/exception monad
      over the controller object. *)

From Stdlib Require Import ZArith Lia Bool List.
From Stdlib Require Import Floats.
From stdpp Require Import base strings gmap list pretty.

Local Open Scope Z_scope.

(** ** Python exceptions and results *)

Inductive PyExc : Type :=
  | ZeroDivisionError
  | ValueError
  | OverflowError
  | KeyError
  | IndexError.

Inductive Result (A : Type) : Type :=
  | Ok (a : A)
  | Raise (e : PyExc).
Arguments Ok {A} a.
Arguments Raise {A} e.

Global Instance Result_ret : MRet Result := fun _ a => Ok a.
Global Instance Result_bind : MBind Result := fun _ _ k r =>
  match r with
  | Ok a => k a
  | Raise e => Raise e
  end.

Definition is_ok {A} (r : Result A) : bool :=
  match r with Ok _ => true | Raise _ => false end.

(** ** Python floats *)

Module PyFloat.

Definition float : Type := spec_float.

(** [float(z)] for a Python int. *)
Definition of_int (z : Z) : float := binary_normalize prec emax z 0 false.

Definition add (x y : float) : float := SFadd prec emax x y.
Definition mul (x y : float) : float := SFmul prec emax x y.
Definition neg (x : float) : float := SFopp x.
Definition ltb (x y : float) : bool := SFltb x y.
Definition leb (x y : float) : bool := SFleb x y.

(** [x / y]: Python raises on a zero divisor of either sign. *)
Definition truediv (x y : float) : Result float :=
  match y with
  | S754_zero _ => Raise ZeroDivisionError
  | _ => Ok (SFdiv prec emax x y)
  end.

(** [int(x)]: truncation toward zero; NaN and the infinities raise. *)
Definition to_int (x : float) : Result Z :=
  match x with
  | S754_nan => Raise ValueError
  | S754_infinity _ => Raise OverflowError
  | S754_zero _ => Ok 0
  | S754_finite s m e => Ok (cond_Zopp s (Z.shiftl (Z.pos m) e))
  end.

(** [min(a, b)] and [max(a, b)] keep the first argument unless the second
    compares strictly smaller (larger). *)
Definition min (a b : float) : float := if ltb b a then b else a.
Definition max (a b : float) : float := if ltb a b then b else a.

(** The literals of the source, each the binary64 number nearest to the
    decimal. *)
Definition f0_1 : float :=
  Eval vm_compute in SFdiv prec emax (of_int 1) (of_int 10).
Definition f4_4 : float :=
  Eval vm_compute in SFdiv prec emax (of_int 44) (of_int 10).
Definition f0_5 : float :=
  Eval vm_compute in SFdiv prec emax (of_int 1) (of_int 2).
Definition f1_0 : float := Eval vm_compute in of_int 1.
Definition f2_0 : float := Eval vm_compute in of_int 2.
Definition f255_0 : float := Eval vm_compute in of_int 255.
Definition f65535 : float := Eval vm_compute in of_int 65535.

Definition sign_text (s : bool) : string := if s then "-" else "".

(** Quotient of [num] by [den > 0] rounded to nearest, ties to even. *)
Definition div_half_even (num den : Z) : Z :=
  let q := num / den in
  match 2 * (num mod den) ?= den with
  | Lt => q
  | Gt => q + 1
  | Eq => if Z.even q then q else q + 1
  end.

(** [f"{x:.1f}"]: the exact binary value rounded to one decimal place. *)
Definition format_1f (x : float) : string :=
  match x with
  | S754_nan => "nan"
  | S754_infinity s => sign_text s +:+ "inf"
  | S754_zero s => sign_text s +:+ "0.0"
  | S754_finite s m e =>
      let tenths :=
        match e with
        | Z.neg p => div_half_even (Z.pos m * 10) (2 ^ Z.pos p)
        | _ => Z.pos m * 10 * 2 ^ e
        end in
      sign_text s +:+ pretty (tenths / 10) +:+ "." +:+ pretty (tenths mod 10)
  end.

End PyFloat.

Abbreviation float := PyFloat.float.

(** ** Gamma ramps *)

(** [RampArray = (c_ushort * 256) * 3]: three rows (red, green, blue) of 256
    unsigned 16-bit cells, zero on creation. *)
Definition RampArray : Type := list (list Z).

Definition RampArray_new : RampArray := replicate 3 (replicate 256 0).

(** A ctypes store into a [c_ushort] cell keeps the low 16 bits. *)
Definition c_ushort (v : Z) : Z := v mod 65536.

(** [ramp[c][i] = v]; the indices the builder uses are always in range. *)
Definition ramp_set (ramp : RampArray) (c i : nat) (v : Z) : RampArray :=
  match ramp !! c with
  | Some row => <[c := <[i := c_ushort v]> row]> ramp
  | None => ramp
  end.

(** [ramp[c][i]] *)
Definition ramp_get (ramp : RampArray) (c i : nat) : option Z :=
  row ← ramp !! c; row !! i.

(** The linear ramp [i * 257] of the untouched channels. *)
Definition identity_value (i : nat) : Z := Z.of_nat i * 257.

Section RampBuilder.

(** The interpreter's [pow(x, y)] on two floats. *)
Variable pow : float -> float -> Result float.

(** The quantised curve value [v] of one index (lines 79-82). *)
Definition curve_value (inv : float) (i : nat) : Result Z :=
  x ← PyFloat.truediv (PyFloat.of_int (Z.of_nat i)) PyFloat.f255_0;
  y ← pow x inv;
  v ← PyFloat.to_int (PyFloat.add (PyFloat.mul y PyFloat.f65535) PyFloat.f0_5);
  Ok (Z.max 0 (Z.min 65535 v)).

(** One iteration of the loop body (lines 79-93). *)
Definition ramp_step (color_mode : string) (inv : float)
    (ramp : RampArray) (i : nat) : Result RampArray :=
  v ← curve_value inv i;
  if decide (color_mode = "blue") then
    Ok (ramp_set (ramp_set (ramp_set ramp 0 i (identity_value i))
                    1 i (identity_value i)) 2 i v)
  else
    Ok (ramp_set (ramp_set (ramp_set ramp 0 i v) 1 i v) 2 i v).

(** [for i in ...:] over a list of indices, stopping at the first raise. *)
Fixpoint ramp_loop (color_mode : string) (inv : float)
    (ramp : RampArray) (indices : list nat) : Result RampArray :=
  match indices with
  | [] => Ok ramp
  | i :: rest =>
      ramp' ← ramp_step color_mode inv ramp i;
      ramp_loop color_mode inv ramp' rest
  end.

(** [GammaController._build_gamma_ramp]; [color_mode] is [self.color_mode]. *)
Definition _build_gamma_ramp (color_mode : string) (gamma : float)
    : Result RampArray :=
  inv ← PyFloat.truediv PyFloat.f1_0 gamma;
  ramp_loop color_mode inv RampArray_new (seq 0 256).

End RampBuilder.

(** A [pow] that answers only the exponent 1.0, where the power is the base
    itself; it raises elsewhere. *)
Definition pow_exponent_one (x y : float) : Result float :=
  match y with
  | S754_finite false 4503599627370496 (-52) => Ok x
  | _ => Raise ValueError
  end.


(** ** The operating system behind the ctypes calls *)

(** The fields of [DISPLAY_DEVICEW] the program reads. *)
Record DISPLAY_DEVICEW : Type := {
  DeviceName : string;
  StateFlags : Z;
}.

Definition DISPLAY_DEVICE_ACTIVE : Z := 0x00000001.

(** What the system answers during one run.  [EnumDisplayDevicesW(None, i,
    ...)] succeeds exactly for the indices of [display_devices]; a handle is
    an integer and 0 is the null handle. *)
Record OS : Type := {
  display_devices : list DISPLAY_DEVICEW;
  CreateDCW : string -> Z;
  GetDC : Z;
  SetDeviceGammaRamp : Z -> RampArray -> bool;
}.

(** ** The persisted configuration *)

(** The JSON values of the configuration file: numbers, strings, and the
    table of hotkey names (an object of strings, never read).

    A number is modelled by its value as a float.  [json.load] returns a
    Python int for an integer literal, and the program only uses the gamma
    in float arithmetic ([gamma + delta], [1.0 / gamma]) and float
    formatting ([:.1f]), each of which first converts an int to the nearest
    float; so an integer is modelled by that float.  An integer too large
    for a float, on which that conversion raises [OverflowError], is
    outside the model. *)
Inductive json : Type :=
  | JNumber (x : float)
  | JString (s : string)
  | JObject (members : list (string * string)).

Definition DEFAULT_CONFIG : gmap string json :=
  {[ "gamma" := JNumber PyFloat.f2_0;
     "color_mode" := JString "all";
     "hotkeys" := JObject [("toggle", "F2"); ("increase", "F3");
                           ("decrease", "F4"); ("cycle_color", "F5")] ]}.

(** ** Observable effects *)

Inductive Event : Type :=
  | CallCreateDC (device : string) (hdc : Z)
  | CallSetDeviceGammaRamp (hdc : Z) (ramp : RampArray) (ok : bool)
  | CallDeleteDC (hdc : Z)
  | CallGetDC (hdc : Z)
  | CallReleaseDC (hdc : Z)
  | WriteConfig (content : gmap string json)
  | CallSystem (command : string)
  | Print (text : string).

(** ** RampApplicator: [_set_ramp_on_all_active_displays] *)

Section RampApplicator.

Variable os : OS.
Variable ramp : RampArray.

(** The body of the [while] loop for the device the enumeration returned
    (lines 106-113): the new [any_applied] and the calls made. *)
Definition visit_display (dd : DISPLAY_DEVICEW) (any_applied : bool)
    : bool * list Event :=
  if decide (Z.land (StateFlags dd) DISPLAY_DEVICE_ACTIVE ≠ 0) then
    let hdc := CreateDCW os (DeviceName dd) in
    if decide (hdc ≠ 0) then
      (true,
       [CallCreateDC (DeviceName dd) hdc;
        CallSetDeviceGammaRamp hdc ramp (SetDeviceGammaRamp os hdc ramp);
        CallDeleteDC hdc])
    else (any_applied, [CallCreateDC (DeviceName dd) hdc])
  else (any_applied, []).

(** The [while True] loop (lines 100-114) from the devices not yet
    enumerated; it breaks when the enumeration is exhausted. *)
Fixpoint enumerate_displays (remaining : list DISPLAY_DEVICEW)
    (any_applied : bool) : bool * list Event :=
  match remaining with
  | [] => (any_applied, [])
  | dd :: rest =>
      let '(any_applied', calls) := visit_display dd any_applied in
      let '(final, calls') := enumerate_displays rest any_applied' in
      (final, calls ++ calls')
  end.

(** The fallback on the primary display (lines 116-121). *)
Definition fallback_calls : list Event :=
  let hdc := GetDC os in
  if decide (hdc ≠ 0) then
    [CallGetDC hdc;
     CallSetDeviceGammaRamp hdc ramp (SetDeviceGammaRamp os hdc ramp);
     CallReleaseDC hdc]
  else [CallGetDC hdc].

Definition _set_ramp_on_all_active_displays : list Event :=
  let '(any_applied, calls) := enumerate_displays (display_devices os) false in
  if negb any_applied then calls ++ fallback_calls else calls.

End RampApplicator.

(** ** GammaController *)

Record GammaController : Type := {
  config : gmap string json;
  running : bool;
  current_gamma : float;
  enabled : bool;
  color_mode : string;
  last_status : string;
}.

(** [load_config]: the file's object merged over the defaults, or the
    defaults when there is no file. *)
Definition load_config (file : option (gmap string json)) : gmap string json :=
  match file with
  | Some loaded => loaded ∪ DEFAULT_CONFIG
  | None => DEFAULT_CONFIG
  end.


(** A method call: it starts from the object, leaves the object as mutated
    so far (also when it raises), and logs its effects. *)
Record Run (A : Type) : Type := {
  self : GammaController;
  events : list Event;
  result : Result A;
}.
Arguments self {A} r.
Arguments events {A} r.
Arguments result {A} r.

Definition Method (A : Type) : Type := GammaController -> Run A.

Global Instance Method_ret : MRet Method := fun _ a c =>
  {| self := c; events := []; result := Ok a |}.
Global Instance Method_bind : MBind Method := fun _ _ k m c =>
  let r := m c in
  match result r with
  | Ok a =>
      let r' := k a (self r) in
      {| self := self r'; events := events r ++ events r'; result := result r' |}
  | Raise e => {| self := self r; events := events r; result := Raise e |}
  end.

Definition get : Method GammaController := fun c =>
  {| self := c; events := []; result := Ok c |}.
Definition put (c : GammaController) : Method unit := fun _ =>
  {| self := c; events := []; result := Ok tt |}.
Definition emit (evs : list Event) : Method unit := fun c =>
  {| self := c; events := evs; result := Ok tt |}.
Definition lift {A} (r : Result A) : Method A := fun c =>
  {| self := c; events := []; result := r |}.

Definition set_enabled (b : bool) (c : GammaController) : GammaController :=
  {| config := config c; running := running c; current_gamma := current_gamma c;
     enabled := b; color_mode := color_mode c; last_status := last_status c |}.
Definition set_current_gamma (g : float) (c : GammaController) : GammaController :=
  {| config := config c; running := running c; current_gamma := g;
     enabled := enabled c; color_mode := color_mode c; last_status := last_status c |}.
Definition set_color_mode (m : string) (c : GammaController) : GammaController :=
  {| config := config c; running := running c; current_gamma := current_gamma c;
     enabled := enabled c; color_mode := m; last_status := last_status c |}.
Definition set_last_status (t : string) (c : GammaController) : GammaController :=
  {| config := config c; running := running c; current_gamma := current_gamma c;
     enabled := enabled c; color_mode := color_mode c; last_status := t |}.
Definition set_config (cfg : gmap string json) (c : GammaController) : GammaController :=
  {| config := cfg; running := running c; current_gamma := current_gamma c;
     enabled := enabled c; color_mode := color_mode c; last_status := last_status c |}.

(** [modes.index(x)]: the first position of [x], [ValueError] when absent. *)
Fixpoint list_index (x : string) (l : list string) : Result nat :=
  match l with
  | [] => Raise ValueError
  | y :: rest => if decide (y = x) then Ok 0%nat
             else k ← list_index x rest; Ok (S k)
  end.

(** [l[i]] on a Python list. *)
Definition list_getitem (l : list string) (i : nat) : Result string :=
  match l !! i with
  | Some x => Ok x
  | None => Raise IndexError
  end.

Definition nl : string := String (Ascii.ascii_of_nat 10) EmptyString.

(** [get_status_text].  Formatting a float with [:.1f] cannot raise. *)
Definition get_status_text (c : GammaController) : string :=
  let status_color := if enabled c then "🟢 ВКЛ" else "🔴 ВЫКЛ" in
  let color_mode_text :=
    if decide (color_mode c = "all") then "Все цвета" else "Синий" in
  "Gamma Controller - Работает" +:+ nl +:+ nl +:+
  "Текущие настройки:" +:+ nl +:+
  "  Статус: " +:+ status_color +:+ nl +:+
  "  Гамма: " +:+ PyFloat.format_1f (current_gamma c) +:+ nl +:+
  "  Цвет гаммы: " +:+ color_mode_text +:+ nl +:+ nl +:+
  "Горячие клавиши:" +:+ nl +:+
  "  F2 - Вкл/Выкл" +:+ nl +:+
  "  F3 - Гамма +" +:+ nl +:+
  "  F4 - Гамма -" +:+ nl +:+
  "  F5 - Сменить цвет" +:+ nl +:+ nl +:+
  "Для выхода закройте окно".

Section Controller.

Variable pow : float -> float -> Result float.
Variable os : OS.

(** [save_config]: the two durable fields go into [self.config], which is
    dumped to the file. *)
Definition save_config : Method unit :=
  c ← get;
  let cfg := <["color_mode" := JString (color_mode c)]>
               (<["gamma" := JNumber (current_gamma c)]> (config c)) in
  put (set_config cfg c);;
  emit [WriteConfig cfg].

(** [apply_gamma] *)
Definition apply_gamma : Method unit :=
  c ← get;
  ramp ← lift (_build_gamma_ramp pow (color_mode c)
                 (if enabled c then current_gamma c else PyFloat.f1_0));
  emit (_set_ramp_on_all_active_displays os ramp).

(** [update_display]; the script runs on Windows only, where the screen
    is cleared with [cls]. *)
Definition update_display : Method unit :=
  c ← get;
  let new_status := get_status_text c in
  if decide (new_status ≠ last_status c) then
    emit [CallSystem "cls"; Print new_status];;
    put (set_last_status new_status c)
  else mret tt.

(** [toggle] *)
Definition toggle : Method unit :=
  c ← get;
  put (set_enabled (negb (enabled c)) c);;
  apply_gamma;;
  update_display.

(** [change_gamma].  On a float gamma the addition of line 137 cannot
    raise: it rounds, to an infinity on overflow. *)
Definition change_gamma (delta : float) : Method unit :=
  c ← get;
  put (set_current_gamma
         (PyFloat.max PyFloat.f0_1
            (PyFloat.min PyFloat.f4_4 (PyFloat.add (current_gamma c) delta))) c);;
  (if enabled c then apply_gamma else mret tt);;
  save_config;;
  update_display.

(** [cycle_color_mode] *)
Definition cycle_color_mode : Method unit :=
  let modes := ["all"; "blue"] in
  c ← get;
  current_idx ← lift (list_index (color_mode c) modes);
  mode ← lift (list_getitem modes ((current_idx + 1) `mod` length modes)%nat);
  put (set_color_mode mode c);;
  (if enabled c then apply_gamma else mret tt);;
  save_config;;
  update_display.

(** [reset_gamma] *)
Definition reset_gamma : Method unit :=
  c ← get;
  put (set_enabled false c);;
  apply_gamma.

(** The [if]/[elif] chain of the polling loop (lines 204-211). *)
Definition dispatch (key_code : Z) : Method unit :=
  if decide (key_code = 0x71) then toggle
  else if decide (key_code = 0x72) then change_gamma PyFloat.f0_1
  else if decide (key_code = 0x73) then change_gamma (PyFloat.neg PyFloat.f0_1)
  else if decide (key_code = 0x74) then cycle_color_mode
  else mret tt.

End Controller.

(** ** HotkeyPoller: the loop of [main] *)

(** The latch of each monitored key, [False] (0) to begin with. *)
Definition key_states_init : gmap Z Z :=
  {[ 0x71 := 0; 0x72 := 0; 0x73 := 0; 0x74 := 0 ]}.

Definition hotkeys : list (Z * string) :=
  [(0x71, "F2"); (0x72, "F3"); (0x73, "F4"); (0x74, "F5")].

(** Truth value of a Python int. *)
Definition truthy (z : Z) : bool := negb (z =? 0).

(** [key_states[key_code]] *)
Definition key_states_getitem (key_states : gmap Z Z) (key_code : Z) : Result Z :=
  match key_states !! key_code with
  | Some v => Ok v
  | None => Raise KeyError
  end.

Section HotkeyPoller.

(** What a detected press calls; [main] passes [dispatch]. *)
Variable handler : Z -> Method unit.

(** One key in one iteration (lines 200-213).  [sample] is what
    [GetAsyncKeyState] returns during this iteration; [and] reads the
    latch only when the key is down. *)
Definition poll_key (sample : Z -> Z) (key_states : gmap Z Z) (key_code : Z)
    : Method (gmap Z Z) :=
  let current_state := Z.land (sample key_code) 0x8000 in
  pressed_now ←
    (if truthy current_state then
       previous ← lift (key_states_getitem key_states key_code);
       mret (negb (truthy previous))
     else mret false);
  (if pressed_now : bool then handler key_code else mret tt);;
  mret (<[key_code := current_state]> key_states).

(** The [for] loop over the four keys. *)
Fixpoint poll_keys (sample : Z -> Z) (key_states : gmap Z Z)
    (keys : list (Z * string)) : Method (gmap Z Z) :=
  match keys with
  | [] => mret key_states
  | (key_code, _) :: rest =>
      key_states' ← poll_key sample key_states key_code;
      poll_keys sample key_states' rest
  end.

(** The [while controller.running] loop over the iterations that happen
    before the interrupt, one sample function per iteration.  The sleep
    between iterations has no effect on the state and is not logged. *)
Fixpoint main_loop (ticks : list (Z -> Z)) (key_states : gmap Z Z)
    : Method (gmap Z Z) :=
  match ticks with
  | [] => mret key_states
  | sample :: rest =>
      key_states' ← poll_keys sample key_states hotkeys;
      main_loop rest key_states'
  end.

End HotkeyPoller.

(** * Properties *)

(** ** RampApplicator *)

Definition is_active (dd : DISPLAY_DEVICEW) : bool :=
  negb (Z.land (StateFlags dd) DISPLAY_DEVICE_ACTIVE =? 0).

(** The fallback is the only place that calls [GetDC]. *)
Definition is_GetDC (ev : Event) : bool :=
  match ev with CallGetDC _ => true | _ => false end.

Definition fallback_taken (calls : list Event) : bool := existsb is_GetDC calls.

Section RampApplicatorFacts.

Variable os : OS.
Variable ramp : RampArray.

Lemma visit_display_no_GetDC dd b :
  existsb is_GetDC (snd (visit_display os ramp dd b)) = false.
Proof.
  unfold visit_display. repeat case_decide; reflexivity.
Qed.

Lemma visit_display_flag dd b :
  fst (visit_display os ramp dd b) =
  b || (is_active dd && negb (CreateDCW os (DeviceName dd) =? 0)).
Proof.
  unfold visit_display, is_active.
  destruct (Z.eqb_spec (Z.land (StateFlags dd) DISPLAY_DEVICE_ACTIVE) 0);
    destruct (Z.eqb_spec (CreateDCW os (DeviceName dd)) 0);
    repeat case_decide; try done; simpl;
    rewrite ?orb_true_r, ?orb_false_r; reflexivity.
Qed.

Lemma enumerate_displays_no_GetDC devs b :
  existsb is_GetDC (snd (enumerate_displays os ramp devs b)) = false.
Proof.
  revert b. induction devs as [|dd devs IH]; intros b; simpl; [reflexivity|].
  pose proof (visit_display_no_GetDC dd b) as Hv.
  destruct (visit_display os ramp dd b) as [b' calls]; simpl in Hv.
  specialize (IH b').
  destruct (enumerate_displays os ramp devs b') as [b'' calls']; simpl in *.
  rewrite existsb_app, Hv, IH. reflexivity.
Qed.

Lemma enumerate_displays_flag devs b :
  fst (enumerate_displays os ramp devs b) =
  b || existsb (fun dd => is_active dd && negb (CreateDCW os (DeviceName dd) =? 0)) devs.
Proof.
  revert b. induction devs as [|dd devs IH]; intros b; simpl.
  - rewrite orb_false_r. reflexivity.
  - pose proof (visit_display_flag dd b) as Hv.
    destruct (visit_display os ramp dd b) as [b' calls]; simpl in Hv.
    specialize (IH b').
    destruct (enumerate_displays os ramp devs b') as [b'' calls']; simpl in *.
    rewrite IH, Hv, orb_assoc. reflexivity.
Qed.

Lemma fallback_calls_GetDC : existsb is_GetDC (fallback_calls os ramp) = true.
Proof. unfold fallback_calls. case_decide; reflexivity. Qed.

Lemma set_ramp_fallback_taken :
  fallback_taken (_set_ramp_on_all_active_displays os ramp) =
  negb (fst (enumerate_displays os ramp (display_devices os) false)).
Proof.
  unfold fallback_taken, _set_ramp_on_all_active_displays.
  pose proof (enumerate_displays_no_GetDC (display_devices os) false) as Hn.
  destruct (enumerate_displays os ramp (display_devices os) false) as [b calls].
  simpl in *. destruct b; simpl.
  - exact Hn.
  - rewrite existsb_app, Hn, fallback_calls_GetDC. reflexivity.
Qed.

End RampApplicatorFacts.

(** The flag records that an apply call was made, not what the call
    returned: one active display whose context opens but whose
    [SetDeviceGammaRamp] fails still sets it, and no fallback follows. *)
Example any_applied_ignores_the_apply_result :
  let os := {| display_devices := [{| DeviceName := "\\.\DISPLAY1"; StateFlags := 5 |}];
               CreateDCW := fun _ => 7; GetDC := 9;
               SetDeviceGammaRamp := fun _ _ => false |} in
  _set_ramp_on_all_active_displays os RampArray_new =
  [CallCreateDC "\\.\DISPLAY1" 7;
   CallSetDeviceGammaRamp 7 RampArray_new false;
   CallDeleteDC 7].
Proof. reflexivity. Qed.


(** ** Running methods *)

Ltac run_monad :=
  cbv [mbind mret Method_bind Method_ret Result_bind Result_ret
       get put emit lift self events result] in *.

(** ** StatusPresenter *)

Definition is_Print (ev : Event) : bool :=
  match ev with Print _ => true | _ => false end.

(** The number of redraws in a log: each redraw prints once. *)
Definition redraws (evs : list Event) : nat := length (filter (fun ev => is_Print ev = true) evs).

Lemma update_display_events (c : GammaController) :
  events (update_display c) =
  if decide (get_status_text c ≠ last_status c)
  then [CallSystem "cls"; Print (get_status_text c)] else [].
Proof.
  unfold update_display. run_monad. case_decide; reflexivity.
Qed.

Lemma update_display_self (c : GammaController) :
  self (update_display c) =
  if decide (get_status_text c ≠ last_status c)
  then set_last_status (get_status_text c) c else c.
Proof.
  unfold update_display. run_monad. case_decide; reflexivity.
Qed.

Lemma update_display_result (c : GammaController) :
  result (update_display c) = Ok tt.
Proof.
  unfold update_display. run_monad. case_decide; reflexivity.
Qed.

Lemma get_status_text_set_last_status (t : string) (c : GammaController) :
  get_status_text (set_last_status t c) = get_status_text c.
Proof. reflexivity. Qed.


(** The status text is never the empty string the controller starts with. *)
Lemma append_cons_not_empty (a : Ascii.ascii) (s t : string) :
  String a s +:+ t ≠ "".
Proof. discriminate. Qed.

Lemma get_status_text_not_empty (c : GammaController) : get_status_text c ≠ "".
Proof. unfold get_status_text. apply append_cons_not_empty. Qed.

(** X1. [update_display] clears the screen and prints exactly when the text
    computed from the controller differs from [last_status], and it then
    remembers the text; a second call on the same state redraws nothing, so
    two calls in a row make one redraw when the state was not yet on screen
    and none when it was. *)
Theorem update_display_redraws_on_change_only (c : GammaController) :
  let first := update_display c in
  let second := update_display (self first) in
  (events first ≠ [] ↔ get_status_text c ≠ last_status c) ∧
  (get_status_text c ≠ last_status c →
     events first = [CallSystem "cls"; Print (get_status_text c)] ∧
     last_status (self first) = get_status_text c) ∧
  (get_status_text c = last_status c → events first = [] ∧ self first = c) ∧
  events second = [] ∧
  redraws (events first ++ events second) =
    (if decide (get_status_text c ≠ last_status c) then 1 else 0)%nat.
Proof.
  intros first second. unfold second, first.
  rewrite !update_display_events, !update_display_self.
  destruct (decide (get_status_text c ≠ last_status c)) as [Hne | Heq].
  - rewrite get_status_text_set_last_status.
    change (last_status (set_last_status (get_status_text c) c))
      with (get_status_text c).
    generalize dependent (get_status_text c). intros t Hne.
    rewrite decide_False by (intros H; by apply H).
    split; [split; [intros _; exact Hne | discriminate]|].
    split; [intros _; split; reflexivity|].
    split; [intros Heq; by destruct Hne|].
    split; reflexivity.
  - apply dec_stable in Heq.
    generalize dependent (get_status_text c). intros t Heq.
    rewrite decide_False by (intros H; by apply H).
    split; [split; [intros H; by destruct H | intros H; by destruct H]|].
    split; [intros H; by destruct H|].
    split; [intros _; split; reflexivity|].
    split; reflexivity.
Qed.

(** ** GammaState: the transitions *)

Definition is_WriteConfig (ev : Event) : bool :=
  match ev with WriteConfig _ => true | _ => false end.

(** The contents written to the configuration file, in order. *)
Definition config_writes (evs : list Event) : list (gmap string json) :=
  omap (fun ev => match ev with WriteConfig cfg => Some cfg | _ => None end) evs.

(** The calls that reach a display. *)
Definition is_display_call (ev : Event) : bool :=
  match ev with
  | CallCreateDC _ _ | CallSetDeviceGammaRamp _ _ _ | CallDeleteDC _
  | CallGetDC _ | CallReleaseDC _ => true
  | _ => false
  end.

(** The gamma [apply_gamma] builds the ramp with. *)
Definition applied_gamma (c : GammaController) : float :=
  if enabled c then current_gamma c else PyFloat.f1_0.

(** [max(0.1, min(4.4, g))] *)
Definition clamp_gamma (g : float) : float :=
  PyFloat.max PyFloat.f0_1 (PyFloat.min PyFloat.f4_4 g).

Definition in_gamma_domain (g : float) : Prop :=
  PyFloat.leb PyFloat.f0_1 g = true ∧ PyFloat.leb g PyFloat.f4_4 = true.

Ltac run_method :=
  unfold toggle, change_gamma, cycle_color_mode, reset_gamma, apply_gamma,
    save_config, update_display;
  run_monad.

Section Transitions.

Variable pow : float -> float -> Result float.
Variable os : OS.

Lemma apply_gamma_run (c : GammaController) :
  apply_gamma pow os c =
  match _build_gamma_ramp pow (color_mode c) (applied_gamma c) with
  | Ok ramp => {| self := c;
                  events := _set_ramp_on_all_active_displays os ramp;
                  result := Ok tt |}
  | Raise e => {| self := c; events := []; result := Raise e |}
  end.
Proof.
  unfold applied_gamma. run_method.
  destruct (_build_gamma_ramp pow (color_mode c) _); reflexivity.
Qed.

Lemma save_config_run (c : GammaController) :
  save_config c =
  let cfg := <["color_mode" := JString (color_mode c)]>
               (<["gamma" := JNumber (current_gamma c)]> (config c)) in
  {| self := set_config cfg c; events := [WriteConfig cfg]; result := Ok tt |}.
Proof. reflexivity. Qed.

End Transitions.

(** ** RampBuilder *)

(** Three rows of 256 cells. *)
Definition ramp_shape (ramp : RampArray) : Prop :=
  length ramp = 3%nat ∧ ∀ c row, ramp !! c = Some row → length row = 256%nat.

Lemma RampArray_new_shape : ramp_shape RampArray_new.
Proof.
  split; [reflexivity|]. intros c row Hrow.
  apply lookup_replicate in Hrow as [-> _]. reflexivity.
Qed.

Lemma ramp_set_shape (ramp : RampArray) (c i : nat) (v : Z) :
  ramp_shape ramp → ramp_shape (ramp_set ramp c i v).
Proof.
  unfold ramp_shape, ramp_set, RampArray in *. intros [Hlen Hrows].
  destruct (ramp !! c) as [row|] eqn:Hc; [|by split].
  split; [by rewrite length_insert|].
  intros c' row' Hrow'.
  destruct (decide (c = c')) as [<- | Hne].
  - rewrite list_lookup_insert_eq in Hrow' by (by eapply lookup_lt_Some).
    injection Hrow' as <-. rewrite length_insert. by eapply Hrows.
  - rewrite list_lookup_insert_ne in Hrow' by done. by eapply Hrows.
Qed.

Lemma ramp_get_set_eq (ramp : RampArray) (c i : nat) (v : Z) :
  ramp_shape ramp → (c < 3)%nat → (i < 256)%nat →
  ramp_get (ramp_set ramp c i v) c i = Some (c_ushort v).
Proof.
  unfold ramp_shape, ramp_get, ramp_set, RampArray in *. intros [Hlen Hrows] Hc Hi.
  destruct (ramp !! c) as [row|] eqn:Hrow.
  - rewrite list_lookup_insert_eq by (by eapply lookup_lt_Some). simpl.
    apply list_lookup_insert_eq. rewrite (Hrows _ _ Hrow). exact Hi.
  - apply lookup_ge_None in Hrow. lia.
Qed.

Lemma ramp_get_set_ne (ramp : RampArray) (c i c' i' : nat) (v : Z) :
  (c ≠ c' ∨ i ≠ i') →
  ramp_get (ramp_set ramp c i v) c' i' = ramp_get ramp c' i'.
Proof.
  intros Hne. unfold ramp_get, ramp_set, RampArray in *.
  destruct (ramp !! c) as [row|] eqn:Hrow; [|done].
  destruct (decide (c = c')) as [<- | Hc].
  - rewrite list_lookup_insert_eq by (by eapply lookup_lt_Some).
    rewrite Hrow. simpl. apply list_lookup_insert_ne. by destruct Hne.
  - by rewrite list_lookup_insert_ne.
Qed.

Lemma c_ushort_in_range (v : Z) : 0 ≤ v ≤ 65535 → c_ushort v = v.
Proof. intros Hv. unfold c_ushort. apply Z.mod_small. lia. Qed.

Lemma identity_value_range (i : nat) :
  (i < 256)%nat → 0 ≤ identity_value i ≤ 65535.
Proof. unfold identity_value. lia. Qed.

Section RampBuilderFacts.

Variable pow : float -> float -> Result float.

(** The clamp of line 82 keeps every curve value in the 16-bit range. *)
Lemma curve_value_range (inv : float) (i : nat) (v : Z) :
  curve_value pow inv i = Ok v → 0 ≤ v ≤ 65535.
Proof.
  unfold curve_value. cbv [mbind Result_bind].
  destruct (PyFloat.truediv _ _) as [x|]; [|discriminate].
  destruct (pow x inv) as [y|]; [|discriminate].
  destruct (PyFloat.to_int _) as [w|]; [|discriminate].
  intros [= <-]. lia.
Qed.

(** The value the loop body assigns to [ramp[c][i]] (lines 84-93), given
    the curve value [v] of the index: [i * 257] for red and green in the
    ["blue"] mode, [v] everywhere else. *)
Definition channel_value (color_mode : string) (c : nat) (i : nat) (v : Z) : Z :=
  if decide (color_mode = "blue") then
    (if decide (c = 2%nat) then v else identity_value i)
  else v.

Lemma ramp_step_spec (color_mode : string) (inv : float)
    (ramp ramp' : RampArray) (i : nat) :
  ramp_shape ramp → (i < 256)%nat →
  ramp_step pow color_mode inv ramp i = Ok ramp' →
  ramp_shape ramp' ∧
  (∀ c j, j ≠ i → ramp_get ramp' c j = ramp_get ramp c j) ∧
  ∃ v, curve_value pow inv i = Ok v ∧
       ∀ c, (c < 3)%nat → ramp_get ramp' c i = Some (channel_value color_mode c i v).
Proof.
  intros Hshape Hi. unfold ramp_step. cbv [mbind Result_bind].
  destruct (curve_value pow inv i) as [v|] eqn:Hv; [|discriminate].
  pose proof (curve_value_range _ _ _ Hv) as Hrange.
  pose proof (identity_value_range i Hi) as Hid.
  unfold channel_value.
  destruct (decide (color_mode = "blue")); intros [= <-].
  - split; [by repeat apply ramp_set_shape|].
    split.
    + intros c j Hj. rewrite !ramp_get_set_ne by (right; done). done.
    + exists v. split; [done|]. intros c Hc.
      destruct (decide (c = 2%nat)) as [-> | Hc2].
      * rewrite ramp_get_set_eq by (repeat apply ramp_set_shape; done || lia).
        by rewrite c_ushort_in_range.
      * rewrite ramp_get_set_ne by (left; done).
        destruct (decide (c = 1%nat)) as [-> | Hc1].
        -- rewrite ramp_get_set_eq by (repeat apply ramp_set_shape; done || lia).
           by rewrite c_ushort_in_range.
        -- rewrite ramp_get_set_ne by (left; done).
           assert (c = 0%nat) as -> by lia.
           rewrite ramp_get_set_eq by (done || lia).
           by rewrite c_ushort_in_range.
  - split; [by repeat apply ramp_set_shape|].
    split.
    + intros c j Hj. rewrite !ramp_get_set_ne by (right; done). done.
    + exists v. split; [done|]. intros c Hc.
      destruct (decide (c = 2%nat)) as [-> | Hc2].
      * rewrite ramp_get_set_eq by (repeat apply ramp_set_shape; done || lia).
        by rewrite c_ushort_in_range.
      * rewrite ramp_get_set_ne by (left; done).
        destruct (decide (c = 1%nat)) as [-> | Hc1].
        -- rewrite ramp_get_set_eq by (repeat apply ramp_set_shape; done || lia).
           by rewrite c_ushort_in_range.
        -- rewrite ramp_get_set_ne by (left; done).
           assert (c = 0%nat) as -> by lia.
           rewrite ramp_get_set_eq by (done || lia).
           by rewrite c_ushort_in_range.
Qed.

Lemma ramp_loop_spec (color_mode : string) (inv : float) (indices : list nat) :
  ∀ ramp ramp' : RampArray,
  ramp_shape ramp → (∀ i, i ∈ indices → (i < 256)%nat) →
  ramp_loop pow color_mode inv ramp indices = Ok ramp' →
  ramp_shape ramp' ∧
  (∀ c j, j ∉ indices → ramp_get ramp' c j = ramp_get ramp c j) ∧
  (∀ i, i ∈ indices →
     ∃ v, curve_value pow inv i = Ok v ∧
          ∀ c, (c < 3)%nat → ramp_get ramp' c i = Some (channel_value color_mode c i v)).
Proof.
  induction indices as [|a rest IH]; intros ramp ramp' Hshape Hbound; simpl.
  - intros [= <-]. split; [done|]. split; [done|].
    intros i Hi. by apply not_elem_of_nil in Hi.
  - cbv [mbind Result_bind].
    destruct (ramp_step pow color_mode inv ramp a) as [ramp1|] eqn:Hstep;
      [|discriminate].
    intros Hloop.
    apply ramp_step_spec in Hstep as (Hshape1 & Hother1 & v & Hv & Hset1);
      [|done|apply Hbound; left].
    apply IH in Hloop as (Hshape' & Hother & Hin);
      [|done|intros i Hi; apply Hbound; by right].
    split; [done|]. split.
    + intros c j Hj. apply not_elem_of_cons in Hj as [Hja Hjr].
      rewrite Hother by done. by apply Hother1.
    + intros i Hi. destruct (decide (i ∈ rest)) as [Hr | Hr]; [by apply Hin|].
      apply elem_of_cons in Hi as [-> | Hi]; [|done].
      exists v. split; [done|]. intros c Hc.
      rewrite Hother by done. by apply Hset1.
Qed.

End RampBuilderFacts.

(** The identity ramp: every channel maps [i] to [i * 257]. *)
Definition identity_ramp : RampArray :=
  replicate 3 (identity_value <$> seq 0 256).

(** [pow(x, 1.0)] is [x]. *)
Definition pow_identity_at_one (pow : float -> float -> Result float) : Prop :=
  ∀ x, pow x PyFloat.f1_0 = Ok x.

Lemma elem_of_seq_256 (i : nat) : i ∈ seq 0 256 ↔ (i < 256)%nat.
Proof. rewrite elem_of_seq. lia. Qed.

Lemma ramp_get_outside (ramp : RampArray) (c i : nat) :
  ramp_shape ramp → ¬ ((c < 3)%nat ∧ (i < 256)%nat) → ramp_get ramp c i = None.
Proof.
  unfold ramp_shape, ramp_get, RampArray in *. intros [Hlen Hrows] Hout.
  destruct (ramp !! c) as [row|] eqn:Hrow; [|done]. simpl.
  apply lookup_ge_None. rewrite (Hrows _ _ Hrow).
  apply lookup_lt_Some in Hrow. lia.
Qed.

(** The builder only looks at [pow] on the exponent it computed. *)
Lemma ramp_loop_ext (pow pow' : float -> float -> Result float)
    (color_mode : string) (inv : float) (indices : list nat) :
  (∀ x, pow x inv = pow' x inv) →
  ∀ ramp, ramp_loop pow color_mode inv ramp indices =
          ramp_loop pow' color_mode inv ramp indices.
Proof.
  intros Hext. induction indices as [|i rest IH]; intros ramp; simpl; [done|].
  unfold ramp_step, curve_value. cbv [mbind Result_bind].
  destruct (PyFloat.truediv _ _) as [x|]; [|done].
  rewrite Hext. destruct (pow' x inv) as [y|]; [|done].
  destruct (PyFloat.to_int _) as [v|]; [|done].
  destruct (decide (color_mode = "blue")); apply IH.
Qed.

(** Any mode other than ["blue"] builds the ramp of ["all"]. *)
Lemma ramp_loop_not_blue (pow : float -> float -> Result float)
    (color_mode : string) (inv : float) (indices : list nat) :
  color_mode ≠ "blue" →
  ∀ ramp, ramp_loop pow color_mode inv ramp indices =
          ramp_loop pow "all" inv ramp indices.
Proof.
  intros Hmode. induction indices as [|i rest IH]; intros ramp; simpl; [done|].
  unfold ramp_step. cbv [mbind Result_bind].
  destruct (curve_value pow inv i) as [v|]; [|done].
  rewrite decide_False by done. rewrite decide_False by done. apply IH.
Qed.


Lemma build_gamma_ramp_neutral_computed (color_mode : string) :
  _build_gamma_ramp pow_exponent_one color_mode PyFloat.f1_0 = Ok identity_ramp.
Proof.
  unfold _build_gamma_ramp.
  change (PyFloat.truediv PyFloat.f1_0 PyFloat.f1_0)
    with (Ok (SFdiv prec emax PyFloat.f1_0 PyFloat.f1_0) : Result float).
  cbv [mbind Result_bind].
  destruct (decide (color_mode = "blue")) as [-> | Hmode].
  - vm_compute. reflexivity.
  - rewrite ramp_loop_not_blue by done. vm_compute. reflexivity.
Qed.

Lemma build_gamma_ramp_at_one (pow : float -> float -> Result float)
    (color_mode : string) :
  pow_identity_at_one pow →
  _build_gamma_ramp pow color_mode PyFloat.f1_0 = Ok identity_ramp.
Proof.
  intros Hpow. rewrite <- (build_gamma_ramp_neutral_computed color_mode).
  unfold _build_gamma_ramp.
  change (PyFloat.truediv PyFloat.f1_0 PyFloat.f1_0)
    with (Ok (SFdiv prec emax PyFloat.f1_0 PyFloat.f1_0) : Result float).
  cbv [mbind Result_bind]. apply ramp_loop_ext.
  intros x. change (SFdiv prec emax PyFloat.f1_0 PyFloat.f1_0) with PyFloat.f1_0.
  rewrite Hpow. reflexivity.
Qed.

Section RampBuilderProperties.

Variable pow : float -> float -> Result float.

(** X2. Whatever the gamma and the mode, a ramp that was built has three
    rows of 256 cells, and each cell holds exactly the value the loop body
    assigned to it: the clamped curve value, or [i * 257] for red and green
    in the ["blue"] mode.  That value lies between 0 and 65535, so no store
    into a 16-bit cell wraps. *)
Theorem build_gamma_ramp_cells_in_range
    (color_mode : string) (gamma : float) (ramp : RampArray) :
  _build_gamma_ramp pow color_mode gamma = Ok ramp →
  ramp_shape ramp ∧
  (∃ inv, PyFloat.truediv PyFloat.f1_0 gamma = Ok inv ∧
     ∀ c i, (c < 3)%nat → (i < 256)%nat →
       ∃ v, curve_value pow inv i = Ok v ∧
            let assigned := channel_value color_mode c i v in
            0 ≤ assigned ≤ 65535 ∧
            c_ushort assigned = assigned ∧
            ramp_get ramp c i = Some assigned) ∧
  (∀ c i, ¬ ((c < 3)%nat ∧ (i < 256)%nat) → ramp_get ramp c i = None).
Proof.
  unfold _build_gamma_ramp. cbv [mbind Result_bind].
  destruct (PyFloat.truediv PyFloat.f1_0 gamma) as [inv|]; [|discriminate].
  intros Hloop.
  apply ramp_loop_spec in Hloop as (Hshape & _ & Hin);
    [|apply RampArray_new_shape|intros i Hi; by apply elem_of_seq_256].
  split; [done|]. split.
  - exists inv. split; [done|]. intros c i Hc Hi.
    destruct (Hin i) as (v & Hv & Hget); [by apply elem_of_seq_256|].
    exists v. split; [done|]. cbv zeta.
    pose proof (curve_value_range _ _ _ _ Hv).
    pose proof (identity_value_range i Hi).
    assert (0 ≤ channel_value color_mode c i v ≤ 65535) as Hrange
      by (unfold channel_value; repeat case_decide; lia).
    split; [exact Hrange|]. split; [by apply c_ushort_in_range|].
    by apply Hget.
  - intros c i Hout. by apply ramp_get_outside.
Qed.

(** X3. In the ["blue"] mode the red and green rows are the linear ramp
    [i * 257] whatever the gamma, and the blue row holds the quantised
    curve value of each index. *)
Theorem build_gamma_ramp_blue_only
    (gamma : float) (ramp : RampArray) :
  _build_gamma_ramp pow "blue" gamma = Ok ramp →
  ∃ inv, PyFloat.truediv PyFloat.f1_0 gamma = Ok inv ∧
  ∀ i, (i < 256)%nat →
    ramp_get ramp 0 i = Some (Z.of_nat i * 257) ∧
    ramp_get ramp 1 i = Some (Z.of_nat i * 257) ∧
    ∃ v, curve_value pow inv i = Ok v ∧ ramp_get ramp 2 i = Some v.
Proof.
  unfold _build_gamma_ramp. cbv [mbind Result_bind].
  destruct (PyFloat.truediv PyFloat.f1_0 gamma) as [inv|]; [|discriminate].
  intros Hloop. exists inv. split; [done|].
  apply ramp_loop_spec in Hloop as (Hshape & _ & Hin);
    [|apply RampArray_new_shape|intros i Hi; by apply elem_of_seq_256].
  intros i Hi.
  destruct (Hin i) as (v & Hv & Hget); [by apply elem_of_seq_256|].
  rewrite (Hget 0%nat), (Hget 1%nat), (Hget 2%nat) by lia.
  unfold channel_value. simpl. unfold identity_value.
  split; [done|]. split; [done|]. by exists v.
Qed.

(** X4. Every mode string other than ["blue"], known or not, builds the same
    ramp as ["all"], and in that ramp the three rows are equal: each holds
    the quantised curve value of the index. *)
Theorem build_gamma_ramp_not_blue
    (color_mode : string) (gamma : float) :
  color_mode ≠ "blue" →
  _build_gamma_ramp pow color_mode gamma = _build_gamma_ramp pow "all" gamma ∧
  ∀ ramp, _build_gamma_ramp pow color_mode gamma = Ok ramp →
    ∃ inv, PyFloat.truediv PyFloat.f1_0 gamma = Ok inv ∧
    ∀ i, (i < 256)%nat →
      ∃ v, curve_value pow inv i = Ok v ∧
           ramp_get ramp 0 i = Some v ∧ ramp_get ramp 1 i = Some v ∧
           ramp_get ramp 2 i = Some v.
Proof.
  intros Hmode. unfold _build_gamma_ramp. cbv [mbind Result_bind].
  destruct (PyFloat.truediv PyFloat.f1_0 gamma) as [inv|].
  - split; [by apply ramp_loop_not_blue|].
    intros ramp Hloop. exists inv. split; [done|].
    apply ramp_loop_spec in Hloop as (Hshape & _ & Hin);
      [|apply RampArray_new_shape|intros i Hi; by apply elem_of_seq_256].
    intros i Hi.
    destruct (Hin i) as (v & Hv & Hget); [by apply elem_of_seq_256|].
    exists v. rewrite (Hget 0%nat), (Hget 1%nat), (Hget 2%nat) by lia.
    unfold channel_value. rewrite !decide_False by done. auto.
  - split; [done|]. intros ramp [=].
Qed.

(** X5. With gamma 1.0 the builder returns the identity ramp in every mode,
    as soon as [pow(x, 1.0)] is [x]: entry [i] of each row is [i * 257],
    from 0 at index 0 to 65535 at index 255. *)
Theorem build_gamma_ramp_neutral (color_mode : string) :
  pow_identity_at_one pow →
  _build_gamma_ramp pow color_mode PyFloat.f1_0 = Ok identity_ramp ∧
  ∀ c i, (c < 3)%nat → (i < 256)%nat →
    ramp_get identity_ramp c i = Some (Z.of_nat i * 257).
Proof.
  intros Hpow. split.
  - by apply build_gamma_ramp_at_one.
  - intros c i Hc Hi. unfold ramp_get, identity_ramp, RampArray.
    rewrite lookup_replicate_2 by done. cbn [mbind option_bind].
    rewrite list_lookup_fmap, lookup_seq_lt by done. reflexivity.
Qed.

End RampBuilderProperties.

Lemma build_gamma_ramp_cells_in_range_witness :
  ramp_shape identity_ramp.
Proof.
  apply (build_gamma_ramp_cells_in_range pow_exponent_one "all" PyFloat.f1_0).
  apply build_gamma_ramp_neutral_computed.
Defined.

Lemma build_gamma_ramp_blue_only_witness :
  ∃ inv, PyFloat.truediv PyFloat.f1_0 PyFloat.f1_0 = Ok inv ∧
  ∀ i, (i < 256)%nat →
    ramp_get identity_ramp 0 i = Some (Z.of_nat i * 257) ∧
    ramp_get identity_ramp 1 i = Some (Z.of_nat i * 257) ∧
    ∃ v, curve_value pow_exponent_one inv i = Ok v ∧
         ramp_get identity_ramp 2 i = Some v.
Proof.
  apply (build_gamma_ramp_blue_only pow_exponent_one PyFloat.f1_0).
  apply build_gamma_ramp_neutral_computed.
Defined.

Lemma build_gamma_ramp_not_blue_witness :
  _build_gamma_ramp pow_exponent_one "red" PyFloat.f1_0 =
  _build_gamma_ramp pow_exponent_one "all" PyFloat.f1_0.
Proof.
  apply (build_gamma_ramp_not_blue pow_exponent_one "red" PyFloat.f1_0).
  discriminate.
Defined.

Lemma build_gamma_ramp_neutral_witness :
  _build_gamma_ramp pow_exponent_one "blue" PyFloat.f1_0 = Ok identity_ramp.
Proof.
  apply (build_gamma_ramp_neutral pow_exponent_one "blue").
  intros x. reflexivity.
Defined.

(** ** RampApplicator: who gets the ramp, and the life of a context *)

(** The device names passed to [CreateDCW], in call order. *)
Definition created_devices (evs : list Event) : list string :=
  omap (fun ev => match ev with CallCreateDC name _ => Some name | _ => None end) evs.

(** The [(hdc, ramp)] arguments of the [SetDeviceGammaRamp] calls, in call
    order. *)
Definition ramp_applications (evs : list Event) : list (Z * RampArray) :=
  omap (fun ev => match ev with
                  | CallSetDeviceGammaRamp hdc ramp _ => Some (hdc, ramp)
                  | _ => None
                  end) evs.

(** The non-null contexts [CreateDCW] gives for the active displays, in
    enumeration order. *)
Definition acquired_handles (os : OS) : list Z :=
  filter (fun hdc => hdc ≠ 0)
    ((fun dd => CreateDCW os (DeviceName dd)) <$>
     filter (fun dd => is_active dd = true) (display_devices os)).

(** The state of the one context a well-scoped log may have open: where it
    came from, its handle, and whether the ramp was applied on it. *)
Inductive dc_origin : Type := FromCreateDC | FromGetDC.

Definition open_context (origin : dc_origin) (hdc : Z)
    : option (dc_origin * Z * bool) :=
  if hdc =? 0 then None else Some (origin, hdc, false).

(** A log is well scoped when contexts never overlap, a null handle is never
    used, the ramp is applied exactly once on each context that was opened
    and only while it is open, each context is closed by the call that
    matches the one that opened it, and none is left open at the end. *)
Fixpoint contexts_scoped (current : option (dc_origin * Z * bool))
    (evs : list Event) : bool :=
  match evs with
  | [] => match current with None => true | Some _ => false end
  | CallCreateDC _ hdc :: rest =>
      match current with
      | None => contexts_scoped (open_context FromCreateDC hdc) rest
      | Some _ => false
      end
  | CallGetDC hdc :: rest =>
      match current with
      | None => contexts_scoped (open_context FromGetDC hdc) rest
      | Some _ => false
      end
  | CallSetDeviceGammaRamp hdc _ _ :: rest =>
      match current with
      | Some (origin, h, false) =>
          (h =? hdc) && contexts_scoped (Some (origin, h, true)) rest
      | _ => false
      end
  | CallDeleteDC hdc :: rest =>
      match current with
      | Some (FromCreateDC, h, true) => (h =? hdc) && contexts_scoped None rest
      | _ => false
      end
  | CallReleaseDC hdc :: rest =>
      match current with
      | Some (FromGetDC, h, true) => (h =? hdc) && contexts_scoped None rest
      | _ => false
      end
  | _ :: rest => contexts_scoped current rest
  end.

Lemma contexts_scoped_app (evs evs' : list Event) :
  ∀ current, contexts_scoped current evs = true →
  contexts_scoped current (evs ++ evs') = contexts_scoped None evs'.
Proof.
  induction evs as [|ev evs IH]; intros current; simpl.
  - by destruct current.
  - destruct ev; try apply IH;
      destruct current as [[[[] h] []]|]; try done;
      try (intros [Hh Hrest]%andb_true_iff; rewrite Hh; simpl; by apply IH);
      apply IH.
Qed.

Section RampApplicatorProperties.

Variable os : OS.
Variable ramp : RampArray.

Lemma open_context_null origin : open_context origin 0 = None.
Proof. reflexivity. Qed.

Lemma open_context_not_null origin hdc :
  hdc ≠ 0 → open_context origin hdc = Some (origin, hdc, false).
Proof. intros Hne. unfold open_context. by rewrite (proj2 (Z.eqb_neq _ _)). Qed.

Lemma visit_display_scoped dd b :
  contexts_scoped None (snd (visit_display os ramp dd b)) = true.
Proof.
  unfold visit_display.
  destruct (decide (Z.land (StateFlags dd) DISPLAY_DEVICE_ACTIVE ≠ 0)); [|done].
  destruct (decide (CreateDCW os (DeviceName dd) ≠ 0)) as [Hdc | Hnull]; simpl.
  - rewrite open_context_not_null by done. by rewrite Z.eqb_refl.
  - apply dec_stable in Hnull. by rewrite Hnull.
Qed.

Lemma enumerate_displays_scoped devs b :
  contexts_scoped None (snd (enumerate_displays os ramp devs b)) = true.
Proof.
  revert b. induction devs as [|dd devs IH]; intros b; simpl; [done|].
  pose proof (visit_display_scoped dd b) as Hv.
  destruct (visit_display os ramp dd b) as [b' calls]; simpl in Hv.
  specialize (IH b').
  destruct (enumerate_displays os ramp devs b') as [b'' calls']; simpl in *.
  by rewrite contexts_scoped_app.
Qed.

Lemma fallback_calls_scoped :
  contexts_scoped None (fallback_calls os ramp) = true.
Proof.
  unfold fallback_calls.
  destruct (decide (GetDC os ≠ 0)) as [Hdc | Hnull]; simpl.
  - rewrite open_context_not_null by done. by rewrite Z.eqb_refl.
  - apply dec_stable in Hnull. by rewrite Hnull.
Qed.

(** X6. Every device context the applicator opens is used for exactly one
    [SetDeviceGammaRamp] and then closed by the matching call ([DeleteDC]
    after [CreateDCW], [ReleaseDC] after [GetDC]) before the next one is
    opened; a null handle is never applied on or closed, and no context
    is open when the function returns. *)
Theorem set_ramp_contexts_scoped :
  contexts_scoped None (_set_ramp_on_all_active_displays os ramp) = true.
Proof.
  unfold _set_ramp_on_all_active_displays.
  pose proof (enumerate_displays_scoped (display_devices os) false) as Hs.
  destruct (enumerate_displays os ramp (display_devices os) false) as [b calls].
  simpl in Hs. destruct b; simpl; [done|].
  rewrite contexts_scoped_app by done. apply fallback_calls_scoped.
Qed.

End RampApplicatorProperties.

(** The checker rejects a log that applies on a closed context or keeps one
    open. *)
Example contexts_scoped_rejects :
  contexts_scoped None [CallCreateDC "d" 7; CallSetDeviceGammaRamp 7 [] true] = false ∧
  contexts_scoped None [CallCreateDC "d" 7; CallDeleteDC 7] = false ∧
  contexts_scoped None [CallGetDC 0; CallSetDeviceGammaRamp 0 [] true] = false.
Proof. repeat split; reflexivity. Qed.

Section RampApplicatorTargets.

Variable os : OS.
Variable ramp : RampArray.

Let handle_of (dd : DISPLAY_DEVICEW) : Z := CreateDCW os (DeviceName dd).

Lemma visit_display_targets dd b :
  let r := visit_display os ramp dd b in
  created_devices (snd r) =
    (if is_active dd then [DeviceName dd] else []) ∧
  ramp_applications (snd r) =
    (if is_active dd && negb (handle_of dd =? 0) then [(handle_of dd, ramp)] else []).
Proof.
  unfold visit_display, is_active, handle_of.
  destruct (Z.eqb_spec (Z.land (StateFlags dd) DISPLAY_DEVICE_ACTIVE) 0);
    destruct (Z.eqb_spec (CreateDCW os (DeviceName dd)) 0);
    repeat case_decide; try done; simpl; by split.
Qed.

Lemma enumerate_displays_targets devs b :
  let r := enumerate_displays os ramp devs b in
  created_devices (snd r) =
    DeviceName <$> filter (fun dd => is_active dd = true) devs ∧
  ramp_applications (snd r) =
    (fun hdc => (hdc, ramp)) <$>
      filter (fun hdc => hdc ≠ 0)
        (handle_of <$> filter (fun dd => is_active dd = true) devs) ∧
  fst r = b || negb (bool_decide
    (filter (fun hdc => hdc ≠ 0)
       (handle_of <$> filter (fun dd => is_active dd = true) devs) = [])).
Proof.
  revert b. induction devs as [|dd devs IH]; intros b; simpl.
  - rewrite orb_false_r. done.
  - pose proof (visit_display_targets dd b) as [Hc Ha].
    pose proof (visit_display_flag os ramp dd b) as Hf. fold (handle_of dd) in Hf.
    destruct (visit_display os ramp dd b) as [b' calls]; simpl in Hc, Ha, Hf.
    destruct (IH b') as (IHc & IHa & IHf).
    destruct (enumerate_displays os ramp devs b') as [b'' calls']; simpl in *.
    unfold created_devices, ramp_applications in *.
    rewrite !omap_app, Hc, Ha, IHc, IHa, IHf, Hf.
    destruct (is_active dd) eqn:Hact; simpl.
    + rewrite (filter_cons_True _ dd) by done. rewrite fmap_cons.
      destruct (Z.eqb_spec (handle_of dd) 0) as [Hz | Hnz]; simpl.
      * rewrite filter_cons_False by (intros H; by apply H).
        rewrite orb_false_r. done.
      * rewrite filter_cons_True by done. simpl.
        rewrite ?orb_true_r. done.
    + rewrite (filter_cons_False _ dd) by (by rewrite Hact).
      rewrite orb_false_r. done.
Qed.

(** X7. [CreateDCW] is called once for each active display, in enumeration
    order, and for no inactive one.  The ramp that was passed in is applied
    exactly on the non-null contexts so obtained, in that order; when there
    is none, it is applied once on the primary display's context if [GetDC]
    returns one, and nowhere at all if that is null too. *)
Theorem set_ramp_targets :
  let trace := _set_ramp_on_all_active_displays os ramp in
  created_devices trace =
    DeviceName <$> filter (fun dd => is_active dd = true) (display_devices os) ∧
  ramp_applications trace =
    match acquired_handles os with
    | [] => if decide (GetDC os ≠ 0) then [(GetDC os, ramp)] else []
    | handles => (fun hdc => (hdc, ramp)) <$> handles
    end.
Proof.
  intros trace. unfold trace, _set_ramp_on_all_active_displays, acquired_handles.
  pose proof (enumerate_displays_targets (display_devices os) false) as (Hc & Ha & Hf).
  fold handle_of.
  destruct (enumerate_displays os ramp (display_devices os) false) as [b calls].
  simpl in Hc, Ha, Hf.
  destruct (filter (fun hdc => hdc ≠ 0)
              (handle_of <$> filter (fun dd => is_active dd = true)
                 (display_devices os))) as [|h hs] eqn:Hhandles.
  - rewrite bool_decide_true in Hf by done. simpl in Hf. subst b. simpl.
    unfold created_devices, ramp_applications in *.
    rewrite !omap_app, Hc, Ha. unfold fallback_calls.
    destruct (decide (GetDC os ≠ 0)); simpl; by rewrite app_nil_r.
  - rewrite bool_decide_false in Hf by done. simpl in Hf. subst b. simpl.
    by split.
Qed.

End RampApplicatorTargets.

(** ** The flag and the fallback *)

(** One active display whose context opens but on which every apply
    fails. *)
Definition os_apply_fails : OS :=
  {| display_devices := [ {| DeviceName := "\\.\DISPLAY1"; StateFlags := 5 |} ];
     CreateDCW := fun _ => 7;
     GetDC := 9;
     SetDeviceGammaRamp := fun _ _ => false |}.

(** No display at all, and no primary context either. *)
Definition os_without_contexts : OS :=
  {| display_devices := [];
     CreateDCW := fun _ => 0;
     GetDC := 0;
     SetDeviceGammaRamp := fun _ _ => true |}.

(** The flag read as "at least one apply on an enumerated active display
    succeeded". *)
Definition flag_tracks_success (os : OS) (ramp : RampArray) : Prop :=
  let run := enumerate_displays os ramp (display_devices os) false in
  fst run = true ↔ ∃ hdc, CallSetDeviceGammaRamp hdc ramp true ∈ snd run.

(** The fallback read as "the primary context is acquired and the ramp is
    applied there". *)
Definition fallback_applies (os : OS) (ramp : RampArray) : Prop :=
  let trace := _set_ramp_on_all_active_displays os ramp in
  fallback_taken trace = true →
  ∃ ok, CallSetDeviceGammaRamp (GetDC os) ramp ok ∈ trace.

(** C1, as stated, fails on the code.  The flag does not track success:
    with one active display whose apply returns failure the flag is set
    although no apply succeeded.  And the fallback does not always apply:
    when [GetDC] returns the null handle the fallback is taken and the ramp
    is applied nowhere. *)
Lemma C1_counterexample :
  ¬ flag_tracks_success os_apply_fails RampArray_new ∧
  ¬ fallback_applies os_without_contexts RampArray_new.
Proof.
  split.
  - intros [Hflag _]. destruct (Hflag eq_refl) as [hdc Hin].
    cbn in Hin.
    repeat (apply elem_of_cons in Hin as [Heq | Hin]; [discriminate Heq|]).
    by apply not_elem_of_nil in Hin.
  - intros Happlies. destruct (Happlies eq_refl) as [ok Hin].
    cbn in Hin.
    repeat (apply elem_of_cons in Hin as [Heq | Hin]; [discriminate Heq|]).
    by apply not_elem_of_nil in Hin.
Qed.

(** C1, amended.  [_set_ramp_on_all_active_displays] keeps a flag that is
    set exactly when a [SetDeviceGammaRamp] call was made on the context of
    an enumerated active display; the result of the call is not read.  The
    calls made in the loop are exactly those on the non-null contexts
    [CreateDCW] gave for the active displays.  The function goes to the
    primary display exactly when no active display was found or every
    [CreateDCW] on an active display returned the null handle: it then
    calls [GetDC], and applies the ramp there once and releases the context
    when the handle is non-null, and makes no further call when it is null.
    Whenever an apply on an active display succeeded the fallback is not
    taken. *)
Theorem C1_fallback_exactly_without_apply_call (os : OS) (ramp : RampArray) :
  let devs := display_devices os in
  let run := enumerate_displays os ramp devs false in
  let trace := _set_ramp_on_all_active_displays os ramp in
  (fst run = true ↔ ramp_applications (snd run) ≠ []) ∧
  ramp_applications (snd run) = (fun hdc => (hdc, ramp)) <$> acquired_handles os ∧
  (fallback_taken trace = true ↔
     filter (fun dd => is_active dd = true) devs = [] ∨
     ∀ dd, dd ∈ devs → is_active dd = true → CreateDCW os (DeviceName dd) = 0) ∧
  (fallback_taken trace = true →
     trace = snd run ++ fallback_calls os ramp ∧
     (GetDC os ≠ 0 →
        fallback_calls os ramp =
        [CallGetDC (GetDC os);
         CallSetDeviceGammaRamp (GetDC os) ramp (SetDeviceGammaRamp os (GetDC os) ramp);
         CallReleaseDC (GetDC os)]) ∧
     (GetDC os = 0 → fallback_calls os ramp = [CallGetDC 0])) ∧
  (fallback_taken trace = false → trace = snd run) ∧
  ((∃ hdc, CallSetDeviceGammaRamp hdc ramp true ∈ snd run) →
     fallback_taken trace = false).
Proof.
  intros devs run trace.
  pose proof (enumerate_displays_targets os ramp devs false) as (_ & Happs & Hflag).
  fold run in Happs, Hflag. cbn [orb] in Hflag.
  change (filter (fun hdc => hdc ≠ 0)
            ((fun dd => CreateDCW os (DeviceName dd)) <$>
             filter (fun dd => is_active dd = true) devs))
    with (acquired_handles os) in Happs, Hflag.
  assert (Hcalled : fst run = true ↔ ramp_applications (snd run) ≠ []).
  { rewrite Happs, Hflag.
    destruct (acquired_handles os) as [|h hs]; cbn; split; done. }
  assert (Hacquired : fst run = true ↔
            ∃ dd, dd ∈ devs ∧ is_active dd = true ∧
                  CreateDCW os (DeviceName dd) ≠ 0).
  { unfold run. rewrite enumerate_displays_flag. simpl. rewrite existsb_exists.
    split.
    - intros (dd & Hin & Hdd). apply andb_true_iff in Hdd as [Ha Hc].
      exists dd. split; [by apply list_elem_of_In|]. split; [done|].
      apply negb_true_iff, Z.eqb_neq in Hc. done.
    - intros (dd & Hin & Ha & Hc). exists dd.
      split; [by apply list_elem_of_In|].
      rewrite Ha. simpl. apply negb_true_iff, Z.eqb_neq. exact Hc. }
  assert (Htaken : fallback_taken trace = negb (fst run)).
  { apply set_ramp_fallback_taken. }
  split; [exact Hcalled|]. split; [exact Happs|].
  split; [|split; [|split]].
  - rewrite Htaken, negb_true_iff, <- not_true_iff_false, Hacquired. split.
    + intros Hnone. right. intros dd Hin Ha.
      destruct (decide (CreateDCW os (DeviceName dd) = 0)) as [|Hc]; [done|].
      destruct Hnone. eauto.
    + intros [Hempty | Hall] (dd & Hin & Ha & Hc).
      * assert (dd ∈ filter (fun dd => is_active dd = true) devs) as Hf
          by (apply list_elem_of_filter; done).
        rewrite Hempty in Hf. by apply not_elem_of_nil in Hf.
      * by apply Hc, (Hall dd).
  - intros Ht. rewrite Htaken in Ht. apply negb_true_iff in Ht.
    unfold trace, _set_ramp_on_all_active_displays. fold devs. fold run.
    destruct run as [b calls]. cbn in Ht. subst b. cbn.
    split; [done|]. unfold fallback_calls. split.
    + intros Hdc. by rewrite decide_True.
    + intros Hnull. rewrite Hnull. reflexivity.
  - intros Ht. rewrite Htaken in Ht. apply negb_false_iff in Ht.
    unfold trace, _set_ramp_on_all_active_displays. fold devs. fold run.
    destruct run as [b calls]. cbn in Ht. subst b. reflexivity.
  - intros [hdc Hin]. rewrite Htaken. apply negb_false_iff, Hcalled.
    intros Hnil.
    assert ((hdc, ramp) ∈ ramp_applications (snd run)) as Hmem.
    { unfold ramp_applications. apply list_elem_of_omap.
      by exists (CallSetDeviceGammaRamp hdc ramp true). }
    rewrite Hnil in Hmem. by apply not_elem_of_nil in Hmem.
Qed.

(** ** GammaState: what each transition does *)

Arguments get_status_text : simpl never.
Opaque get_status_text update_display.
Arguments _build_gamma_ramp : simpl never.
Arguments _set_ramp_on_all_active_displays : simpl never.
Arguments PyFloat.add : simpl never.
Arguments PyFloat.max : simpl never.
Arguments PyFloat.min : simpl never.

(** [self.config] after [save_config]. *)
Definition saved_config (c : GammaController) : gmap string json :=
  <["color_mode" := JString (color_mode c)]>
    (<["gamma" := JNumber (current_gamma c)]> (config c)).

(** The tail shared by [change_gamma] and [cycle_color_mode]: save, then
    show. *)
Definition save_and_show (c : GammaController) : Run unit :=
  let c' := set_config (saved_config c) c in
  {| self := self (update_display c');
     events := WriteConfig (saved_config c) :: events (update_display c');
     result := Ok tt |}.

Lemma run_eta {A} (r : Run A) :
  r = {| self := self r; events := events r; result := result r |}.
Proof. by destruct r. Qed.

Lemma run_eta_nil {A} (r : Run A) :
  {| self := self r; events := [] ++ events r; result := result r |} = r.
Proof. by destruct r. Qed.

(** Composition of runs, one call at a time. *)
Lemma run_bind_ok {A B} (m : Method A) (k : A → Method B)
    (c c1 c2 : GammaController) (e1 e2 : list Event) (a : A) (r : Result B) :
  m c = {| self := c1; events := e1; result := Ok a |} →
  k a c1 = {| self := c2; events := e2; result := r |} →
  (m ≫= k) c = {| self := c2; events := e1 ++ e2; result := r |}.
Proof.
  intros Hm Hk. unfold mbind, Method_bind. rewrite Hm. cbn [result self events].
  rewrite Hk. reflexivity.
Qed.

Lemma run_bind_raise {A B} (m : Method A) (k : A → Method B)
    (c c1 : GammaController) (e1 : list Event) (e : PyExc) :
  m c = {| self := c1; events := e1; result := Raise e |} →
  (m ≫= k) c = {| self := c1; events := e1; result := Raise e |}.
Proof.
  intros Hm. unfold mbind, Method_bind. rewrite Hm. reflexivity.
Qed.

Lemma update_display_run (c : GammaController) :
  update_display c =
  {| self := self (update_display c); events := events (update_display c);
     result := Ok tt |}.
Proof.
  pose proof (update_display_result c) as Hr.
  destruct (update_display c) as [c' evs r]. simpl in *. by subst r.
Qed.

Lemma save_and_show_run (c : GammaController) :
  (save_config ≫= (fun _ => update_display)) c = save_and_show c.
Proof.
  unfold save_and_show.
  eapply eq_trans;
    [eapply run_bind_ok; [apply save_config_run|]; apply update_display_run|].
  reflexivity.
Qed.

Section TransitionRuns.

Variable pow : float -> float -> Result float.
Variable os : OS.

Lemma apply_gamma_ok (c : GammaController) (ramp : RampArray) :
  _build_gamma_ramp pow (color_mode c) (applied_gamma c) = Ok ramp →
  apply_gamma pow os c =
  {| self := c; events := _set_ramp_on_all_active_displays os ramp;
     result := Ok tt |}.
Proof. intros Hb. rewrite apply_gamma_run, Hb. reflexivity. Qed.

Lemma apply_gamma_raise (c : GammaController) (e : PyExc) :
  _build_gamma_ramp pow (color_mode c) (applied_gamma c) = Raise e →
  apply_gamma pow os c = {| self := c; events := []; result := Raise e |}.
Proof. intros Hb. rewrite apply_gamma_run, Hb. reflexivity. Qed.

Lemma toggle_run (c : GammaController) :
  toggle pow os c =
  let c1 := set_enabled (negb (enabled c)) c in
  match _build_gamma_ramp pow (color_mode c) (applied_gamma c1) with
  | Ok ramp =>
      {| self := self (update_display c1);
         events := _set_ramp_on_all_active_displays os ramp ++
                   events (update_display c1);
         result := Ok tt |}
  | Raise e => {| self := c1; events := []; result := Raise e |}
  end.
Proof.
  cbv zeta. unfold toggle.
  destruct (_build_gamma_ramp pow _ _) as [ramp|e] eqn:Hb.
  - eapply eq_trans.
    {
      eapply run_bind_ok; [reflexivity|]. cbv beta.
      eapply run_bind_ok; [reflexivity|]. cbv beta.
      eapply run_bind_ok; [by apply apply_gamma_ok|].
      apply update_display_run.
    }
    reflexivity.
  - eapply eq_trans.
    {
      eapply run_bind_ok; [reflexivity|]. cbv beta.
      eapply run_bind_ok; [reflexivity|]. cbv beta.
      eapply run_bind_raise. by apply apply_gamma_raise.
    }
    reflexivity.
Qed.

Lemma reset_gamma_run (c : GammaController) :
  reset_gamma pow os c =
  let c1 := set_enabled false c in
  match _build_gamma_ramp pow (color_mode c) PyFloat.f1_0 with
  | Ok ramp =>
      {| self := c1; events := _set_ramp_on_all_active_displays os ramp;
         result := Ok tt |}
  | Raise e => {| self := c1; events := []; result := Raise e |}
  end.
Proof.
  cbv zeta. unfold reset_gamma.
  destruct (_build_gamma_ramp pow _ _) as [ramp|e] eqn:Hb.
  - eapply eq_trans.
    {
      eapply run_bind_ok; [reflexivity|]. cbv beta.
      eapply run_bind_ok; [reflexivity|]. by apply apply_gamma_ok.
    }
    reflexivity.
  - eapply eq_trans.
    {
      eapply run_bind_ok; [reflexivity|]. cbv beta.
      eapply run_bind_ok; [reflexivity|]. by apply apply_gamma_raise.
    }
    reflexivity.
Qed.

Lemma change_gamma_run (delta : float) (c : GammaController) :
  change_gamma pow os delta c =
  let c1 := set_current_gamma
              (clamp_gamma (PyFloat.add (current_gamma c) delta)) c in
  if enabled c then
    match _build_gamma_ramp pow (color_mode c) (current_gamma c1) with
    | Ok ramp =>
        {| self := self (save_and_show c1);
           events := _set_ramp_on_all_active_displays os ramp ++
                     events (save_and_show c1);
           result := Ok tt |}
    | Raise e => {| self := c1; events := []; result := Raise e |}
    end
  else save_and_show c1.
Proof.
  cbv zeta. unfold change_gamma.
  fold (clamp_gamma (PyFloat.add (current_gamma c) delta)).
  set (c1 := set_current_gamma _ c).
  destruct (enabled c) eqn:Hen.
  - destruct (_build_gamma_ramp pow _ _) as [ramp|e] eqn:Hb.
    + eapply eq_trans.
      {
        eapply run_bind_ok; [reflexivity|]. cbv beta.
        eapply run_bind_ok; [reflexivity|]. cbv beta. rewrite Hen.
        eapply run_bind_ok;
          [apply apply_gamma_ok; unfold applied_gamma; subst c1; cbn; by rewrite Hen|].
        rewrite save_and_show_run. apply run_eta.
      }
      reflexivity.
    + eapply eq_trans.
      {
        eapply run_bind_ok; [reflexivity|]. cbv beta.
        eapply run_bind_ok; [reflexivity|]. cbv beta. rewrite Hen.
        eapply run_bind_raise.
        apply apply_gamma_raise. unfold applied_gamma. subst c1. cbn. by rewrite Hen.
      }
      reflexivity.
  - eapply eq_trans.
    {
      eapply run_bind_ok; [reflexivity|]. cbv beta.
      eapply run_bind_ok; [reflexivity|]. cbv beta. rewrite Hen.
      eapply run_bind_ok; [reflexivity|]. cbv beta.
      rewrite save_and_show_run. apply run_eta.
    }
    subst c1. unfold clamp_gamma.
    match goal with
    | |- context [save_and_show ?x] => generalize (save_and_show x)
    end.
    intros r. by destruct r.
Qed.

Lemma cycle_color_mode_run (c : GammaController) :
  cycle_color_mode pow os c =
  match list_index (color_mode c) ["all"; "blue"] with
  | Raise e => {| self := c; events := []; result := Raise e |}
  | Ok idx =>
      match list_getitem ["all"; "blue"] ((idx + 1) `mod` 2)%nat with
      | Raise e => {| self := c; events := []; result := Raise e |}
      | Ok mode =>
          let c1 := set_color_mode mode c in
          if enabled c then
            match _build_gamma_ramp pow mode (current_gamma c) with
            | Ok ramp =>
                {| self := self (save_and_show c1);
                   events := _set_ramp_on_all_active_displays os ramp ++
                             events (save_and_show c1);
                   result := Ok tt |}
            | Raise e => {| self := c1; events := []; result := Raise e |}
            end
          else save_and_show c1
      end
  end.
Proof.
  cbv zeta. unfold cycle_color_mode.
  change (length ["all"; "blue"]) with 2%nat.
  destruct (list_index (color_mode c) ["all"; "blue"]) as [idx|e] eqn:Hidx.
  2:{ eapply eq_trans.
      {
        eapply run_bind_ok; [reflexivity|]. cbv beta.
        eapply run_bind_raise. unfold lift. rewrite Hidx. reflexivity.
      }
      reflexivity. }
  destruct (list_getitem ["all"; "blue"] ((idx + 1) `mod` 2)%nat)
    as [mode|e] eqn:Hmode.
  2:{ eapply eq_trans.
      {
        eapply run_bind_ok; [reflexivity|]. cbv beta.
        eapply run_bind_ok; [unfold lift; rewrite Hidx; reflexivity|]. cbv beta.
        eapply run_bind_raise. unfold lift. rewrite Hmode. reflexivity.
      }
      reflexivity. }
  set (c1 := set_color_mode mode c).
  destruct (enabled c) eqn:Hen.
  - destruct (_build_gamma_ramp pow _ _) as [ramp|e] eqn:Hb.
    + eapply eq_trans.
      {
        eapply run_bind_ok; [reflexivity|]. cbv beta.
        eapply run_bind_ok; [unfold lift; rewrite Hidx; reflexivity|]. cbv beta.
        eapply run_bind_ok; [unfold lift; rewrite Hmode; reflexivity|]. cbv beta.
        eapply run_bind_ok; [reflexivity|]. cbv beta. rewrite Hen.
        eapply run_bind_ok;
          [apply apply_gamma_ok; unfold applied_gamma; cbn; by rewrite Hen|].
        fold c1. rewrite save_and_show_run. apply run_eta.
      }
      reflexivity.
    + eapply eq_trans.
      {
        eapply run_bind_ok; [reflexivity|]. cbv beta.
        eapply run_bind_ok; [unfold lift; rewrite Hidx; reflexivity|]. cbv beta.
        eapply run_bind_ok; [unfold lift; rewrite Hmode; reflexivity|]. cbv beta.
        eapply run_bind_ok; [reflexivity|]. cbv beta. rewrite Hen.
        eapply run_bind_raise.
        apply apply_gamma_raise. unfold applied_gamma. cbn. by rewrite Hen.
      }
      reflexivity.
  - eapply eq_trans.
    {
      eapply run_bind_ok; [reflexivity|]. cbv beta.
      eapply run_bind_ok; [unfold lift; rewrite Hidx; reflexivity|]. cbv beta.
      eapply run_bind_ok; [unfold lift; rewrite Hmode; reflexivity|]. cbv beta.
      eapply run_bind_ok; [reflexivity|]. cbv beta. rewrite Hen.
      eapply run_bind_ok; [reflexivity|]. cbv beta.
      fold c1. rewrite save_and_show_run. apply run_eta.
    }
    subst c1. unfold clamp_gamma.
    match goal with
    | |- context [save_and_show ?x] => generalize (save_and_show x)
    end.
    intros r. by destruct r.
Qed.

End TransitionRuns.

(** The display calls of a log. *)
Definition display_calls (evs : list Event) : list Event :=
  filter (fun ev => is_display_call ev = true) evs.

Lemma set_ramp_only_display_calls (os : OS) (ramp : RampArray) :
  Forall (fun ev => is_display_call ev = true)
    (_set_ramp_on_all_active_displays os ramp).
Proof.
  assert (Hvisit : ∀ dd b,
    Forall (fun ev => is_display_call ev = true) (snd (visit_display os ramp dd b))).
  { intros dd b. unfold visit_display.
    repeat case_decide; simpl; repeat constructor. }
  assert (Henum : ∀ devs b,
    Forall (fun ev => is_display_call ev = true)
      (snd (enumerate_displays os ramp devs b))).
  { induction devs as [|dd devs IH]; intros b; simpl; [constructor|].
    specialize (Hvisit dd b).
    destruct (visit_display os ramp dd b) as [b' calls]. specialize (IH b').
    destruct (enumerate_displays os ramp devs b') as [b'' calls'].
    simpl in *. by apply Forall_app. }
  unfold _set_ramp_on_all_active_displays.
  specialize (Henum (display_devices os) false).
  destruct (enumerate_displays os ramp (display_devices os) false) as [b calls].
  simpl in Henum. destruct b; simpl; [done|].
  apply Forall_app. split; [done|].
  unfold fallback_calls. case_decide; repeat constructor.
Qed.

Lemma config_writes_app (evs evs' : list Event) :
  config_writes (evs ++ evs') = config_writes evs ++ config_writes evs'.
Proof. apply omap_app. Qed.

Lemma display_calls_app (evs evs' : list Event) :
  display_calls (evs ++ evs') = display_calls evs ++ display_calls evs'.
Proof. apply filter_app. Qed.

Lemma redraws_app (evs evs' : list Event) :
  redraws (evs ++ evs') = (redraws evs + redraws evs')%nat.
Proof. unfold redraws. by rewrite filter_app, length_app. Qed.

Lemma display_calls_only (evs : list Event) :
  Forall (fun ev => is_display_call ev = true) evs →
  display_calls evs = evs ∧ config_writes evs = [] ∧ redraws evs = 0%nat.
Proof.
  induction 1 as [|ev evs Hev _ (IHd & IHc & IHr)]; [done|].
  unfold display_calls, redraws in *.
  rewrite filter_cons_True by done. rewrite IHd.
  destruct ev; try discriminate; simpl;
    (rewrite filter_cons_False by (simpl; discriminate));
    by rewrite IHc, IHr.
Qed.

Lemma update_display_no_calls (c : GammaController) :
  display_calls (events (update_display c)) = [] ∧
  config_writes (events (update_display c)) = [].
Proof.
  rewrite update_display_events. by case_decide.
Qed.

Lemma update_display_fields (c : GammaController) :
  config (self (update_display c)) = config c ∧
  current_gamma (self (update_display c)) = current_gamma c ∧
  enabled (self (update_display c)) = enabled c ∧
  color_mode (self (update_display c)) = color_mode c ∧
  running (self (update_display c)) = running c.
Proof.
  rewrite update_display_self. by case_decide.
Qed.

(** [float] comparisons: strictly below implies below or equal. *)
Lemma ltb_leb (x y : float) : PyFloat.ltb x y = true → PyFloat.leb x y = true.
Proof.
  unfold PyFloat.ltb, PyFloat.leb, SFltb, SFleb.
  by destruct (SFcompare x y) as [[]|].
Qed.

(** The clamp lands in the gamma domain from any float at all: the
    infinities and NaN included. *)
Lemma clamp_gamma_in_domain (g : float) : in_gamma_domain (clamp_gamma g).
Proof.
  unfold clamp_gamma, in_gamma_domain, PyFloat.max, PyFloat.min.
  destruct (PyFloat.ltb g PyFloat.f4_4) eqn:Hhi.
  - destruct (PyFloat.ltb PyFloat.f0_1 g) eqn:Hlo.
    + split; by apply ltb_leb.
    + split; reflexivity.
  - split; reflexivity.
Qed.

Lemma save_and_show_facts (c : GammaController) :
  let r := save_and_show c in
  config_writes (events r) = [saved_config c] ∧
  display_calls (events r) = [] ∧
  config (self r) = saved_config c ∧
  current_gamma (self r) = current_gamma c ∧
  enabled (self r) = enabled c ∧
  color_mode (self r) = color_mode c.
Proof.
  unfold save_and_show. cbn [self events].
  set (c' := set_config (saved_config c) c).
  destruct (update_display_no_calls c') as [Hd Hc].
  destruct (update_display_fields c') as (Hcfg & Hg & He & Hm & _).
  split.
  { change (config_writes (WriteConfig (saved_config c) :: ?l))
      with (saved_config c :: config_writes l). by rewrite Hc. }
  split.
  { unfold display_calls in *.
    rewrite filter_cons_False by (simpl; discriminate). exact Hd. }
  rewrite Hcfg, Hg, He, Hm. done.
Qed.


Section GammaStateProperties.

Variable pow : float -> float -> Result float.
Variable os : OS.

Lemma toggle_facts (c : GammaController) :
  let r := toggle pow os c in
  enabled (self r) = negb (enabled c) ∧
  current_gamma (self r) = current_gamma c ∧
  color_mode (self r) = color_mode c ∧
  config (self r) = config c ∧
  match _build_gamma_ramp pow (color_mode c)
          (if negb (enabled c) then current_gamma c else PyFloat.f1_0) with
  | Ok ramp =>
      result r = Ok tt ∧
      display_calls (events r) = _set_ramp_on_all_active_displays os ramp
  | Raise e => result r = Raise e ∧ events r = []
  end.
Proof.
  cbv zeta. rewrite toggle_run. cbv zeta.
  set (c1 := set_enabled (negb (enabled c)) c).
  change (applied_gamma c1)
    with (if negb (enabled c) then current_gamma c else PyFloat.f1_0).
  destruct (_build_gamma_ramp pow _ _) as [ramp|e]; cbn [self events result].
  - destruct (update_display_fields c1) as (Hcfg & Hg & He & Hm & _).
    destruct (update_display_no_calls c1) as [Hd _].
    destruct (display_calls_only _ (set_ramp_only_display_calls os ramp))
      as (Hd' & _ & _).
    rewrite Hcfg, Hg, He, Hm, display_calls_app.
    rewrite Hd, Hd', ?app_nil_r. by repeat split.
  - by repeat split.
Qed.

(** X8. [toggle] flips [enabled] and touches nothing durable: whether the
    apply went through or raised, the gamma, the color mode and
    [self.config] are as before and nothing is written to the
    configuration file.  When it returns, the display calls it made are
    those of applying the ramp of the new state. *)
Theorem toggle_flips_and_never_saves (c : GammaController) :
  let r := toggle pow os c in
  enabled (self r) = negb (enabled c) ∧
  current_gamma (self r) = current_gamma c ∧
  color_mode (self r) = color_mode c ∧
  config (self r) = config c ∧
  config_writes (events r) = [] ∧
  match _build_gamma_ramp pow (color_mode c)
          (if negb (enabled c) then current_gamma c else PyFloat.f1_0) with
  | Ok ramp =>
      result r = Ok tt ∧
      display_calls (events r) = _set_ramp_on_all_active_displays os ramp
  | Raise e => result r = Raise e ∧ events r = []
  end.
Proof.
  cbv zeta. destruct (toggle_facts c) as (He & Hg & Hm & Hcfg & Hout).
  split; [exact He|]. split; [exact Hg|]. split; [exact Hm|].
  split; [exact Hcfg|]. split; [|exact Hout].
  rewrite toggle_run. cbv zeta.
  destruct (_build_gamma_ramp pow _ _) as [ramp|e]; cbn [events]; [|done].
  destruct (update_display_no_calls (set_enabled (negb (enabled c)) c)) as [_ Hc].
  destruct (display_calls_only _ (set_ramp_only_display_calls os ramp))
    as (_ & Hc' & _).
  by rewrite config_writes_app, Hc, Hc'.
Qed.

(** X9. Two [toggle] calls in a row bring [enabled] back and leave the gamma,
    the mode and the configuration alone; the second call applies the very
    ramp of the state before the pair, whatever the first call did. *)
Theorem toggle_twice_restores (c : GammaController) :
  let r1 := toggle pow os c in
  let r2 := toggle pow os (self r1) in
  enabled (self r2) = enabled c ∧
  current_gamma (self r2) = current_gamma c ∧
  color_mode (self r2) = color_mode c ∧
  config (self r2) = config c ∧
  ∀ ramp, _build_gamma_ramp pow (color_mode c) (applied_gamma c) = Ok ramp →
    result r2 = Ok tt ∧
    display_calls (events r2) = _set_ramp_on_all_active_displays os ramp.
Proof.
  intros r1 r2.
  destruct (toggle_facts c) as (He1 & Hg1 & Hm1 & Hc1 & _).
  destruct (toggle_facts (self r1)) as (He2 & Hg2 & Hm2 & Hc2 & Hb).
  fold r1 in He1, Hg1, Hm1, Hc1. fold r1 r2 in He2, Hg2, Hm2, Hc2, Hb.
  rewrite He2, Hg2, Hm2, Hc2, He1, Hg1, Hm1, Hc1, negb_involutive.
  split; [done|]. split; [done|]. split; [done|]. split; [done|].
  intros ramp Hramp.
  rewrite He1, Hg1, Hm1, negb_involutive in Hb.
  unfold applied_gamma in Hramp. by rewrite Hramp in Hb.
Qed.

Lemma change_gamma_fields (delta : float) (c : GammaController) :
  let r := change_gamma pow os delta c in
  current_gamma (self r) = clamp_gamma (PyFloat.add (current_gamma c) delta) ∧
  enabled (self r) = enabled c ∧
  color_mode (self r) = color_mode c.
Proof.
  cbv zeta. rewrite change_gamma_run. cbv zeta.
  set (c1 := set_current_gamma _ c).
  assert (Hgoal : ∀ r : Run unit,
    current_gamma (self r) = current_gamma c1 →
    enabled (self r) = enabled c1 → color_mode (self r) = color_mode c1 →
    current_gamma (self r) = clamp_gamma (PyFloat.add (current_gamma c) delta) ∧
    enabled (self r) = enabled c ∧ color_mode (self r) = color_mode c).
  { by intros r -> -> ->. }
  destruct (save_and_show_facts c1) as (_ & _ & _ & Hg & He & Hm).
  destruct (enabled c).
  - destruct (_build_gamma_ramp pow _ _); by apply Hgoal.
  - by apply Hgoal.
Qed.

(** X10. On a controller whose gamma is a float, after [change_gamma] the
    gamma is [max(0.1, min(4.4, gamma + delta))] and lies in [0.1, 4.4], for
    every float [delta] and every previous float gamma (out of range,
    infinite or NaN included), also when the apply raised.  The enabled flag
    and the color mode are untouched. *)
Theorem change_gamma_clamps (delta : float) (c : GammaController) :
  let r := change_gamma pow os delta c in
  current_gamma (self r) = clamp_gamma (PyFloat.add (current_gamma c) delta) ∧
  in_gamma_domain (current_gamma (self r)) ∧
  enabled (self r) = enabled c ∧
  color_mode (self r) = color_mode c.
Proof.
  cbv zeta. destruct (change_gamma_fields delta c) as (Hg & He & Hm).
  split; [exact Hg|]. split; [|by split].
  rewrite Hg. apply clamp_gamma_in_domain.
Qed.


End GammaStateProperties.

(** A sequence of [change_gamma] calls, each on the object the previous one
    left. *)
Definition change_gamma_many (pow : float -> float -> Result float) (os : OS)
    (deltas : list float) (c : GammaController) : GammaController :=
  foldl (fun c delta => self (change_gamma pow os delta c)) c deltas.

Section GammaSequences.

Variable pow : float -> float -> Result float.
Variable os : OS.

(** X12. From a gamma in [0.1, 4.4], no sequence of [change_gamma] calls, with
    any deltas, leaves the domain. *)
Theorem change_gamma_many_in_domain (deltas : list float) (c : GammaController) :
  in_gamma_domain (current_gamma c) →
  in_gamma_domain (current_gamma (change_gamma_many pow os deltas c)).
Proof.
  unfold change_gamma_many.
  revert c. induction deltas as [|delta deltas IH]; intros c Hc; [done|].
  cbn [foldl]. apply IH.
  destruct (change_gamma_fields pow os delta c) as (Hg & _).
  rewrite Hg. apply clamp_gamma_in_domain.
Qed.

(** X13. The bounds are sticky: at 4.4 any number of [change_gamma(0.1)] calls
    leaves the gamma at exactly 4.4, and at 0.1 any number of
    [change_gamma(-0.1)] calls leaves it at exactly 0.1. *)
Theorem change_gamma_saturates (n : nat) (c : GammaController) :
  (current_gamma c = PyFloat.f4_4 →
   current_gamma (change_gamma_many pow os (replicate n PyFloat.f0_1) c)
     = PyFloat.f4_4) ∧
  (current_gamma c = PyFloat.f0_1 →
   current_gamma
     (change_gamma_many pow os (replicate n (PyFloat.neg PyFloat.f0_1)) c)
     = PyFloat.f0_1).
Proof.
  unfold change_gamma_many.
  split; revert c; induction n as [|n IH]; intros c Hc; try done;
    cbn [replicate foldl]; apply IH.
  - destruct (change_gamma_fields pow os PyFloat.f0_1 c) as (Hg & _).
    rewrite Hg, Hc. vm_compute. reflexivity.
  - destruct (change_gamma_fields pow os (PyFloat.neg PyFloat.f0_1) c) as (Hg & _).
    rewrite Hg, Hc. vm_compute. reflexivity.
Qed.


(** X15. With a color mode that is neither ["all"] nor ["blue"],
    [cycle_color_mode] raises [ValueError] from [modes.index] before it
    changes, applies, writes or prints anything. *)
Theorem cycle_color_mode_unknown_mode (c : GammaController) :
  color_mode c ≠ "all" → color_mode c ≠ "blue" →
  cycle_color_mode pow os c =
  {| self := c; events := []; result := Raise ValueError |}.
Proof.
  intros Hall Hblue. rewrite cycle_color_mode_run. unfold list_index.
  rewrite decide_False by congruence. rewrite decide_False by congruence.
  reflexivity.
Qed.

(** X16. [reset_gamma] always leaves the controller disabled and changes no other
    field; as soon as [pow(x, 1.0)] is [x] it returns, and its effects
    are exactly those of applying the identity ramp, in every color mode
    and from every previous gamma. *)
Theorem reset_gamma_applies_identity (c : GammaController) :
  pow_identity_at_one pow →
  reset_gamma pow os c =
  {| self := set_enabled false c;
     events := _set_ramp_on_all_active_displays os identity_ramp;
     result := Ok tt |}.
Proof.
  intros Hpow. rewrite reset_gamma_run. cbv zeta.
  rewrite (build_gamma_ramp_at_one pow (color_mode c) Hpow).
  reflexivity.
Qed.

End GammaSequences.

(** ** Witnesses of the state properties *)

Definition example_os : OS :=
  {| display_devices := [ {| DeviceName := "\\.\DISPLAY1"; StateFlags := 5 |};
                          {| DeviceName := "\\.\DISPLAY2"; StateFlags := 0 |} ];
     CreateDCW := fun _ => 7;
     GetDC := 9;
     SetDeviceGammaRamp := fun _ _ => true |}.

Definition example_controller (mode : string) : GammaController :=
  {| config := DEFAULT_CONFIG; running := true; current_gamma := PyFloat.f2_0;
     enabled := false; color_mode := mode; last_status := "" |}.

Lemma change_gamma_many_in_domain_witness :
  in_gamma_domain
    (current_gamma
       (change_gamma_many pow_exponent_one example_os
          [PyFloat.f0_1; PyFloat.neg PyFloat.f0_1] (example_controller "all"))).
Proof.
  apply (change_gamma_many_in_domain pow_exponent_one example_os).
  split; reflexivity.
Defined.


Lemma cycle_color_mode_unknown_mode_witness :
  cycle_color_mode pow_exponent_one example_os (example_controller "red") =
  {| self := example_controller "red"; events := []; result := Raise ValueError |}.
Proof.
  apply (cycle_color_mode_unknown_mode pow_exponent_one example_os
           (example_controller "red")); discriminate.
Defined.

Lemma reset_gamma_applies_identity_witness :
  reset_gamma pow_exponent_one example_os (example_controller "blue") =
  {| self := set_enabled false (example_controller "blue");
     events := _set_ramp_on_all_active_displays example_os identity_ramp;
     result := Ok tt |}.
Proof.
  apply (reset_gamma_applies_identity pow_exponent_one example_os).
  intros x. reflexivity.
Defined.

(** ** The configuration: loading, saving, reloading *)

(** The configuration file is modelled by the JSON object it holds. *)

(** X17. [load_config] takes each key from the file when the file has it and
    from the defaults otherwise, so the three default keys are always
    present; without a file the result is the defaults. *)
Theorem load_config_merges_over_defaults
    (file : option (gmap string json)) (key : string) :
  load_config file !! key =
    match file ≫= (fun loaded => loaded !! key) with
    | Some v => Some v
    | None => DEFAULT_CONFIG !! key
    end ∧
  is_Some (load_config file !! "gamma") ∧
  is_Some (load_config file !! "color_mode") ∧
  is_Some (load_config file !! "hotkeys").
Proof.
  assert (Hkey : ∀ k, load_config file !! k =
    match file ≫= (fun loaded => loaded !! k) with
    | Some v => Some v
    | None => DEFAULT_CONFIG !! k
    end).
  { intros k. destruct file as [loaded|]; simpl; [|done].
    rewrite lookup_union. by destruct (loaded !! k), (DEFAULT_CONFIG !! k). }
  split; [apply Hkey|].
  repeat split; rewrite Hkey;
    destruct (file ≫= _); try (by eexists); by vm_compute.
Qed.




(** ** HotkeyPoller: edge detection *)

(** The key is down in this sample (bit 15 of [GetAsyncKeyState]). *)
Definition pressed (sample : Z -> Z) (key_code : Z) : bool :=
  truthy (Z.land (sample key_code) 0x8000).

(** Down now and up in the previous iteration. *)
Definition is_rising (previous sample : Z -> Z) (key_code : Z) : bool :=
  pressed sample key_code && negb (pressed previous key_code).

(** Before the first iteration every key counts as released. *)
Definition released : Z -> Z := fun _ => 0.

(** The keys that rise in one iteration, in the order the loop visits
    them, and over a run of iterations. *)
Definition rising_keys (previous sample : Z -> Z) (keys : list Z) : list Z :=
  filter (fun key_code => is_rising previous sample key_code = true) keys.

Fixpoint rising_edges (previous : Z -> Z) (ticks : list (Z -> Z)) : list Z :=
  match ticks with
  | [] => []
  | sample :: rest => rising_keys previous sample hotkeys.*1 ++ rising_edges sample rest
  end.

(** The rising edges in the sampled states of one key. *)
Fixpoint edge_count (previous : bool) (states : list bool) : nat :=
  match states with
  | [] => 0
  | now :: rest => (if now && negb previous then 1 else 0) + edge_count now rest
  end.

(** The handler called for each key of a list in turn, up to the first
    raise. *)
Fixpoint call_all (handler : Z -> Method unit) (keys : list Z) : Method unit :=
  match keys with
  | [] => mret tt
  | key_code :: rest => handler key_code ;; call_all handler rest
  end.

(** The latches hold the masked samples of [previous] for the given keys. *)
Definition latched (key_states : gmap Z Z) (previous : Z -> Z) (keys : list Z) : Prop :=
  ∀ key_code, key_code ∈ keys →
    key_states !! key_code = Some (Z.land (previous key_code) 0x8000).

(** Two runs that differ only in the value they return. *)
Definition same_run {A B} (r : Run A) (r' : Run B) : Prop :=
  self r = self r' ∧ events r = events r' ∧
  match result r, result r' with
  | Ok _, Ok _ => True
  | Raise e, Raise e' => e = e'
  | _, _ => False
  end.

Lemma filter_none {A} (P : A → Prop) `{!∀ x, Decision (P x)} (l : list A) :
  (∀ x, x ∈ l → ¬ P x) → filter P l = [].
Proof.
  induction l as [|a l IH]; intros Hnone; [done|].
  rewrite filter_cons_False by (apply Hnone; left).
  apply IH. intros x Hx. apply Hnone. by right.
Qed.

Lemma hotkeys_NoDup : NoDup hotkeys.*1.
Proof.
  cbn. repeat (apply NoDup_cons; split;
    [rewrite ?elem_of_cons, elem_of_nil; intros H; decompose [or] H; done|]).
  apply NoDup_nil_2.
Qed.

Lemma bind_unfold {A B} (m : Method A) (k : A → Method B) (c : GammaController) :
  (m ≫= k) c =
  match result (m c) with
  | Ok a =>
      {| self := self (k a (self (m c)));
         events := events (m c) ++ events (k a (self (m c)));
         result := result (k a (self (m c))) |}
  | Raise e => {| self := self (m c); events := events (m c); result := Raise e |}
  end.
Proof. reflexivity. Qed.

Section HotkeyPollerFacts.

Variable handler : Z -> Method unit.

Lemma poll_key_run (previous sample : Z -> Z) (key_states : gmap Z Z)
    (key_code : Z) (c : GammaController) :
  key_states !! key_code = Some (Z.land (previous key_code) 0x8000) →
  let latch := <[key_code := Z.land (sample key_code) 0x8000]> key_states in
  poll_key handler sample key_states key_code c =
  if is_rising previous sample key_code then
    {| self := self (handler key_code c);
       events := events (handler key_code c);
       result := match result (handler key_code c) with
                 | Ok _ => Ok latch
                 | Raise e => Raise e
                 end |}
  else {| self := c; events := []; result := Ok latch |}.
Proof.
  intros Hlatch. cbv zeta. unfold poll_key, is_rising, pressed, key_states_getitem.
  rewrite Hlatch.
  cbv [mbind mret Method_bind Method_ret lift].
  destruct (truthy (Z.land (sample key_code) 32768)); cbn [self events result andb].
  - destruct (negb (truthy (Z.land (previous key_code) 32768)));
      cbn [self events result app].
    + destruct (handler key_code c) as [c' evs [[]|e]]; cbn [self events result];
        by rewrite ?app_nil_r.
    + reflexivity.
  - reflexivity.
Qed.

Lemma poll_keys_spec (previous sample : Z -> Z) (keys : list (Z * string)) :
  NoDup keys.*1 →
  ∀ (key_states : gmap Z Z) (c : GammaController),
  latched key_states previous keys.*1 →
  let r := poll_keys handler sample key_states keys c in
  let r' := call_all handler (rising_keys previous sample keys.*1) c in
  same_run r r' ∧
  ∀ key_states', result r = Ok key_states' →
    latched key_states' sample keys.*1 ∧
    ∀ key_code, key_code ∉ keys.*1 →
      key_states' !! key_code = key_states !! key_code.
Proof.
  unfold rising_keys.
  induction keys as [|[key_code name] keys IH]; intros Hnodup key_states c Hlatched.
  - cbn. split; [done|]. intros ks' [= <-]. split; [|done].
    intros k Hk. by apply not_elem_of_nil in Hk.
  - rewrite fmap_cons in *. cbn [fst] in *.
    apply NoDup_cons in Hnodup as [Hfresh Hnodup].
    cbn [poll_keys].
    pose proof (poll_key_run previous sample key_states key_code c
                  (Hlatched key_code ltac:(left))) as Hrun.
    cbv zeta in Hrun.
    set (latch := <[key_code := Z.land (sample key_code) 0x8000]> key_states) in *.
    assert (Hlatch' : latched latch previous keys.*1).
    { intros k Hk. unfold latch.
      rewrite lookup_insert_ne by (intros ->; by apply Hfresh).
      apply Hlatched. by right. }
    rewrite bind_unfold, Hrun.
    destruct (is_rising previous sample key_code) eqn:Hrise.
    + rewrite filter_cons_True by done. cbn [call_all]. rewrite bind_unfold.
      cbn [self events result].
      destruct (handler key_code c) as [c1 evs1 [[]|e]]; cbn [self events result].
      * destruct (IH Hnodup latch c1 Hlatch') as ((Hs & He & Hr) & Hks).
        split.
        { unfold same_run. cbn [self events result]. rewrite Hs, He.
          split; [done|]. split; [done|]. exact Hr. }
        intros ks' Hres. cbn [result] in Hres.
        destruct (Hks ks' Hres) as [Hl Ho]. split.
        -- intros k [-> | Hk]%elem_of_cons; [|by apply Hl].
           rewrite Ho by done. apply lookup_insert_eq.
        -- intros k Hk. apply not_elem_of_cons in Hk as [Hne Hk].
           rewrite Ho by done. by apply lookup_insert_ne.
      * split; [done|]. intros ks' [=].
    + rewrite filter_cons_False by (by rewrite Hrise).
      cbn [self events result app].
      destruct (IH Hnodup latch c Hlatch') as ((Hs & He & Hr) & Hks).
      split.
      { unfold same_run. cbn [self events result]. done. }
      intros ks' Hres.
      destruct (Hks ks' Hres) as [Hl Ho]. split.
      * intros k [-> | Hk]%elem_of_cons; [|by apply Hl].
        rewrite Ho by done. apply lookup_insert_eq.
      * intros k Hk. apply not_elem_of_cons in Hk as [Hne Hk].
        rewrite Ho by done. by apply lookup_insert_ne.
Qed.

Lemma call_all_app (keys keys' : list Z) (c : GammaController) :
  call_all handler (keys ++ keys') c =
  (call_all handler keys ;; call_all handler keys') c.
Proof.
  revert c. induction keys as [|k keys IH]; intros c.
  - cbn [app call_all]. unfold mbind, Method_bind, mret, Method_ret.
    cbn [self events result app]. by destruct (call_all handler keys' c).
  - cbn [app call_all]. unfold mbind, Method_bind in *.
    destruct (handler k c) as [c1 evs1 [[]|e]]; cbn [self events result]; [|done].
    rewrite IH.
    destruct (call_all handler keys c1) as [c2 evs2 [[]|e]];
      cbn [self events result]; [|done].
    by rewrite app_assoc.
Qed.

Lemma same_run_bind {A} (m : Method A) (m' : Method unit)
    (k : A → Method A) (k' : Method unit) (c : GammaController) :
  same_run (m c) (m' c) →
  (∀ a, result (m c) = Ok a → same_run (k a (self (m c))) (k' (self (m c)))) →
  same_run ((m ≫= k) c) ((m' ;; k') c).
Proof.
  unfold same_run, mbind, Method_bind. intros (Hs & He & Hr) Hk.
  destruct (m c) as [c1 evs1 [a|e]], (m' c) as [c1' evs1' [[]|e']];
    cbn [self events result] in *; try done; subst.
  destruct (Hk a eq_refl) as (Hs' & He' & Hr'). by rewrite Hs', He'.
Qed.

Lemma main_loop_spec (ticks : list (Z -> Z)) :
  ∀ (previous : Z -> Z) (key_states : gmap Z Z) (c : GammaController),
  latched key_states previous hotkeys.*1 →
  same_run (main_loop handler ticks key_states c)
           (call_all handler (rising_edges previous ticks) c).
Proof.
  induction ticks as [|sample ticks IH]; intros previous key_states c Hlatched.
  - done.
  - cbn [main_loop rising_edges]. rewrite call_all_app.
    destruct (poll_keys_spec previous sample hotkeys
                hotkeys_NoDup key_states c Hlatched)
      as (Hsame & Hks).
    apply same_run_bind; [exact Hsame|].
    intros ks' Hres. apply IH. by apply Hks.
Qed.

Lemma rising_keys_count (previous sample : Z -> Z) (key_code : Z) (keys : list Z) :
  NoDup keys → key_code ∈ keys →
  length (filter (fun k => k = key_code) (rising_keys previous sample keys)) =
  if is_rising previous sample key_code then 1%nat else 0%nat.
Proof.
  unfold rising_keys. induction keys as [|k keys IH]; intros Hnodup Hin.
  - by apply not_elem_of_nil in Hin.
  - apply NoDup_cons in Hnodup as [Hfresh Hnodup].
    assert (Hnone : key_code ∉ keys →
      filter (fun k => k = key_code)
        (filter (fun k => is_rising previous sample k = true) keys) = []).
    { intros Hout. apply filter_none.
      intros x [_ Hx]%list_elem_of_filter ->. done. }
    destruct (decide (k = key_code)) as [-> | Hne].
    + destruct (is_rising previous sample key_code) eqn:Hrise.
      * rewrite filter_cons_True by done. rewrite filter_cons_True by done.
        by rewrite Hnone.
      * rewrite filter_cons_False by (by rewrite Hrise). by rewrite Hnone.
    + apply elem_of_cons in Hin as [-> | Hin]; [done|].
      destruct (is_rising previous sample k) eqn:Hk.
      * rewrite filter_cons_True by done. rewrite filter_cons_False by done.
        by apply IH.
      * rewrite filter_cons_False by (by rewrite Hk). by apply IH.
Qed.

Lemma rising_edges_count (key_code : Z) (ticks : list (Z -> Z)) :
  key_code ∈ hotkeys.*1 →
  ∀ previous,
  length (filter (fun k => k = key_code) (rising_edges previous ticks)) =
  edge_count (pressed previous key_code)
    ((fun sample => pressed sample key_code) <$> ticks).
Proof.
  intros Hin. induction ticks as [|sample ticks IH]; intros previous; [done|].
  cbn [rising_edges edge_count fmap list_fmap].
  rewrite filter_app, length_app, IH.
  rewrite rising_keys_count; [|apply hotkeys_NoDup|done].
  reflexivity.
Qed.

End HotkeyPollerFacts.

Lemma key_states_init_latched : latched key_states_init released hotkeys.*1.
Proof.
  intros k Hk. cbn in Hk.
  repeat (apply elem_of_cons in Hk as [-> | Hk]; [reflexivity|]).
  by apply not_elem_of_nil in Hk.
Qed.

(** X20. The polling loop calls the handler exactly for the rising edges: the
    run of [main_loop] from the initial latches has the state, the effects
    and the outcome of calling the handler once for each key that is down
    in an iteration and was up in the one before (up before the first), in
    iteration order and, within an iteration, in the order F2, F3, F4, F5.
    So a held key fires once, and each monitored key fires as many times as
    its own sampled states rise, whatever the other keys do.  This holds for
    every handler; if a call raises, both runs stop there. *)
Theorem main_loop_fires_on_rising_edges
    (handler : Z -> Method unit) (ticks : list (Z -> Z)) (c : GammaController) :
  same_run (main_loop handler ticks key_states_init c)
           (call_all handler (rising_edges released ticks) c) ∧
  ∀ key_code, key_code ∈ [0x71; 0x72; 0x73; 0x74] →
    length (filter (fun k => k = key_code) (rising_edges released ticks)) =
    edge_count false ((fun sample => pressed sample key_code) <$> ticks).
Proof.
  split.
  - apply main_loop_spec. apply key_states_init_latched.
  - intros key_code Hin. by rewrite rising_edges_count.
Qed.

(** A key sampled up, down, down, down, up, up fires once. *)
Example held_key_fires_once :
  let down : Z -> Z := fun k => if k =? 0x72 then -32768 else 0 in
  rising_edges released [released; down; down; down; released; released] = [0x72].
Proof. reflexivity. Qed.

(** ** The program: [main] *)

Definition interrupted_text : string := nl +:+ "Завершение работы...".
Definition restored_text : string := "Гамма восстановлена. Выход.".

(** [try: body finally: final]: the [finally] block runs on the object as
    the [try] block left it; if it raises, that exception wins, otherwise
    the outcome of the [try] block stands. *)
Definition try_finally (body final : Method unit) : Method unit := fun c =>
  let b := body c in
  let f := final (self b) in
  {| self := self f;
     events := events b ++ events f;
     result := match result f with
               | Ok _ => result b
               | Raise e => Raise e
               end |}.

Lemma try_finally_ok (body final : Method unit)
    (c c' : GammaController) (evs : list Event) :
  final (self (body c)) = {| self := c'; events := evs; result := Ok tt |} →
  self (try_finally body final c) = c' ∧
  events (try_finally body final c) = events (body c) ++ evs ∧
  result (try_finally body final c) = result (body c).
Proof. intros Hfinal. unfold try_finally. cbn. by rewrite Hfinal. Qed.

Lemma bind_events_ok {A B} (m : Method A) (k : A → Method B)
    (c c1 : GammaController) (e1 : list Event) (a : A) :
  m c = {| self := c1; events := e1; result := Ok a |} →
  events ((m ≫= k) c) = e1 ++ events (k a c1).
Proof. intros Hm. rewrite bind_unfold, Hm. reflexivity. Qed.

Section Main.

Variable pow : float -> float -> Result float.
Variable os : OS.

(** The [try] block with its [except KeyboardInterrupt] clause, on a
    constructed controller.  The loop only ends by an exception: either a
    handler raises, or the interrupt arrives after the iterations of
    [ticks] and the [except] clause prints its message. *)
Definition main_try (ticks : list (Z -> Z)) : Method unit :=
  reset_gamma pow os ;;
  update_display ;;
  main_loop (dispatch pow os) ticks key_states_init ;;
  emit [Print interrupted_text].

(** The [finally] block. *)
Definition main_finally : Method unit :=
  reset_gamma pow os ;;
  emit [Print restored_text].

Definition main (ticks : list (Z -> Z)) : Method unit :=
  try_finally (main_try ticks) main_finally.

(** X21. However the loop ends (interrupt, or an exception out of a handler),
    [main] finishes by applying the identity ramp and printing the farewell,
    and leaves the controller disabled; the outcome of the [try] block is
    the outcome of [main].  It also starts by applying the identity ramp,
    before anything is printed.  All this needs of [pow] is that
    [pow(x, 1.0)] is [x]. *)
Theorem main_restores_identity_ramp (ticks : list (Z -> Z)) (c : GammaController) :
  pow_identity_at_one pow →
  enabled (self (main ticks c)) = false ∧
  result (main ticks c) = result (main_try ticks c) ∧
  events (main ticks c) =
    events (main_try ticks c) ++
    (_set_ramp_on_all_active_displays os identity_ramp ++ [Print restored_text]) ∧
  ∃ rest, events (main_try ticks c) =
          _set_ramp_on_all_active_displays os identity_ramp ++ rest.
Proof.
  intros Hpow.
  assert (Hreset : ∀ c0, reset_gamma pow os c0 =
    {| self := set_enabled false c0;
       events := _set_ramp_on_all_active_displays os identity_ramp;
       result := Ok tt |}).
  { intros c0. rewrite reset_gamma_run. cbv zeta.
    rewrite (build_gamma_ramp_at_one pow (color_mode c0) Hpow). reflexivity. }
  assert (Hfinal : ∀ c0, main_finally c0 =
    {| self := set_enabled false c0;
       events := _set_ramp_on_all_active_displays os identity_ramp ++
                 [Print restored_text];
       result := Ok tt |}).
  { intros c0. unfold main_finally.
    eapply run_bind_ok; [apply Hreset|]. reflexivity. }
  destruct (try_finally_ok (main_try ticks) main_finally c _ _
              (Hfinal (self (main_try ticks c)))) as (Hs & He & Hr).
  unfold main. rewrite Hs, He, Hr.
  split; [reflexivity|]. split; [reflexivity|]. split; [reflexivity|].
  eexists. unfold main_try.
  apply bind_events_ok. apply Hreset.
Qed.

End Main.

Lemma pow_exponent_one_identity : pow_identity_at_one pow_exponent_one.
Proof. intros x. reflexivity. Qed.

Lemma main_restores_identity_ramp_witness :
  enabled (self (main pow_exponent_one example_os [released]
                   (example_controller "all"))) = false.
Proof.
  exact (proj1 (main_restores_identity_ramp pow_exponent_one example_os
                  [released] (example_controller "all")
                  pow_exponent_one_identity)).
Defined.

(** ** Edge cases a configuration file can cause *)

Section UncheckedConfiguration.

Variable pow : float -> float -> Result float.
Variable os : OS.

(** X22. A gamma of zero (either sign) read from the file makes the first
    [toggle] raise [ZeroDivisionError] out of the ramp builder: the flag is
    already flipped to enabled, but no display is called and nothing is
    printed or saved. *)
Theorem toggle_with_zero_gamma_raises (c : GammaController) (s : bool) :
  enabled c = false → current_gamma c = S754_zero s →
  toggle pow os c =
  {| self := set_enabled true c; events := []; result := Raise ZeroDivisionError |}.
Proof.
  intros Hen Hg. rewrite toggle_run. cbv zeta. rewrite Hen. cbn [negb].
  unfold applied_gamma. cbn [enabled set_enabled current_gamma].
  rewrite Hg. reflexivity.
Qed.

Transparent get_status_text.


Opaque get_status_text.

End UncheckedConfiguration.

Lemma toggle_with_zero_gamma_raises_witness :
  toggle pow_exponent_one example_os
    (set_current_gamma (S754_zero false) (example_controller "all")) =
  {| self := set_enabled true
               (set_current_gamma (S754_zero false) (example_controller "all"));
     events := []; result := Raise ZeroDivisionError |}.
Proof.
  apply (toggle_with_zero_gamma_raises pow_exponent_one example_os _ false);
    reflexivity.
Defined.


(** ** Runs in which nothing changes *)



Lemma rising_edges_idle (ticks : list (Z -> Z)) :
  (∀ sample key_code, sample ∈ ticks → key_code ∈ hotkeys.*1 →
     pressed sample key_code = false) →
  ∀ previous, rising_edges previous ticks = [].
Proof.
  induction ticks as [|sample ticks IH]; intros Hup previous; [done|].
  cbn [rising_edges]. rewrite IH by (intros s k Hs; apply Hup; by right).
  rewrite app_nil_r. unfold rising_keys. apply filter_none.
  intros k Hk. unfold is_rising. rewrite (Hup sample k) by (done || by left).
  discriminate.
Qed.

Section QuietRuns.

Variable pow : float -> float -> Result float.
Variable os : OS.


(** X25. A run of [main] on a controller whose gamma is a float, in which
    no monitored key is ever sampled down, ends normally at the interrupt,
    never writes the configuration file, makes exactly the display calls of
    two applications of the identity ramp (at start and at exit), and
    leaves the gamma, the color mode and [self.config] as they were.  This
    needs [pow(x, 1.0)] to be [x]. *)
Theorem main_idle_run (ticks : list (Z -> Z)) (c : GammaController) :
  pow_identity_at_one pow →
  (∀ sample key_code, sample ∈ ticks → key_code ∈ hotkeys.*1 →
     pressed sample key_code = false) →
  let r := main pow os ticks c in
  result r = Ok tt ∧
  config_writes (events r) = [] ∧
  display_calls (events r) =
    _set_ramp_on_all_active_displays os identity_ramp ++
    _set_ramp_on_all_active_displays os identity_ramp ∧
  enabled (self r) = false ∧
  current_gamma (self r) = current_gamma c ∧
  color_mode (self r) = color_mode c ∧
  config (self r) = config c.
Proof.
  intros Hpow Hup. cbv zeta.
  assert (Hreset : ∀ c0, reset_gamma pow os c0 =
    {| self := set_enabled false c0;
       events := _set_ramp_on_all_active_displays os identity_ramp;
       result := Ok tt |}).
  { intros c0. rewrite reset_gamma_run. cbv zeta.
    rewrite (build_gamma_ramp_at_one pow (color_mode c0) Hpow). reflexivity. }
  set (c1 := set_enabled false c).
  set (c2 := self (update_display c1)).
  assert (Hloop : ∃ ks, main_loop (dispatch pow os) ticks key_states_init c2 =
                        {| self := c2; events := []; result := Ok ks |}).
  { pose proof (main_loop_spec (dispatch pow os) ticks released key_states_init c2
                  key_states_init_latched) as (Hs & He & Hr).
    rewrite (rising_edges_idle ticks Hup) in Hs, He, Hr.
    destruct (main_loop (dispatch pow os) ticks key_states_init c2)
      as [c3 evs3 [ks|e]]; cbn in Hs, He, Hr; [|done].
    exists ks. by subst. }
  destruct Hloop as [ks Hloop].
  assert (Htry : main_try pow os ticks c =
    {| self := c2;
       events := _set_ramp_on_all_active_displays os identity_ramp ++
                 events (update_display c1) ++ [] ++ [Print interrupted_text];
       result := Ok tt |}).
  { unfold main_try.
    eapply run_bind_ok; [apply Hreset|].
    eapply run_bind_ok; [apply update_display_run|].
    eapply run_bind_ok; [apply Hloop|]. reflexivity. }
  assert (Hfinal : main_finally pow os c2 =
    {| self := set_enabled false c2;
       events := _set_ramp_on_all_active_displays os identity_ramp ++
                 [Print restored_text];
       result := Ok tt |}).
  { unfold main_finally. eapply run_bind_ok; [apply Hreset|]. reflexivity. }
  destruct (try_finally_ok (main_try pow os ticks) (main_finally pow os) c
              (set_enabled false c2)
              (_set_ramp_on_all_active_displays os identity_ramp ++
               [Print restored_text])) as (Hs & He & Hr).
  { rewrite Htry. exact Hfinal. }
  unfold main. rewrite Hs, He, Hr, Htry. cbn [self events result].
  destruct (update_display_fields c1) as (Hcfg & Hg & _ & Hm & _).
  destruct (update_display_no_calls c1) as [Hd Hc].
  destruct (display_calls_only _
              (set_ramp_only_display_calls os identity_ramp)) as (Hd' & Hc' & _).
  split; [done|].
  split.
  { rewrite !config_writes_app, Hc, Hc'. reflexivity. }
  split.
  { rewrite !display_calls_app, Hd, Hd'.
    change (display_calls [Print interrupted_text]) with (@nil Event).
    change (display_calls [Print restored_text]) with (@nil Event).
    change (display_calls []) with (@nil Event).
    cbn [app]. by rewrite !app_nil_r. }
  split; [done|].
  cbn [current_gamma color_mode config set_enabled]. unfold c2.
  rewrite Hg, Hm, Hcfg. done.
Qed.

End QuietRuns.


Lemma main_idle_run_witness :
  result (main pow_exponent_one example_os [released; released]
            (example_controller "all")) = Ok tt.
Proof.
  refine (proj1 (main_idle_run pow_exponent_one example_os [released; released]
                   (example_controller "all") pow_exponent_one_identity _)).
  intros sample key_code Hs _.
  repeat (apply elem_of_cons in Hs as [-> | Hs]; [reflexivity|]).
  by apply not_elem_of_nil in Hs.
Defined.
